(** * shipit_dashboard serializers

    A shallow embedding of [shipit_dashboard/serializers.py]: the three
    helpers [serialize_user], [serialize_bug] and [serialize_analysis]
    that turn stored Bugzilla payloads into the dictionaries served by
    the dashboard API, together with the properties its description
    states about them.

    Layout: Python values and the primitives the serializers rely on
    (string methods, [hashlib.md5], dictionary access and the exceptions
    they raise), then the serializers themselves, then the theorems.

    How the Python is read:
    - a [str] is a sequence of code points below 256, an [int] is a [Z],
      there are no floats;
    - a [dict] is a finite map with string keys; the order of its keys,
      which Python keeps, is not part of the model, and shows only where
      a dictionary is iterated over or printed;
    - a call either returns a value or raises, and the first exception
      raised is the one the caller sees, in the order Python evaluates
      the source;
    - [serialize_user] updates the dictionary it is given; the model
      returns the updated dictionary and does not follow the update
      into the payload it came from, a part of the payload that the
      same call does not read again. *)

From Stdlib Require Import ZArith Ascii String.
From stdpp Require Import gmap strings list fin_maps pretty.

Local Open Scope Z_scope.

(** ** Text

    A Python [str] is modelled by a Rocq [string] whose characters are
    the code points 0..255. *)

Module Str.

Definition code (c : ascii) : Z := Z.of_N (N_of_ascii c).
Definition chr (z : Z) : ascii := ascii_of_N (Z.to_N z).

(** [str.isspace] on one character (the code points below 256 that
    Unicode classes as white space). *)
Definition isspace (c : ascii) : bool :=
  let n := code c in
  ((9 <=? n) && (n <=? 13)) || ((28 <=? n) && (n <=? 32))
  || (n =? 133) || (n =? 160).

(** [str.lower] on one character: A-Z, and the Latin-1 capitals
    U+00C0..U+00DE except the multiplication sign U+00D7. *)
Definition lower_char (c : ascii) : ascii :=
  let n := code c in
  if ((65 <=? n) && (n <=? 90))
     || ((192 <=? n) && (n <=? 222) && negb (n =? 215))
  then chr (n + 32) else c.

Fixpoint lower (s : string) : string :=
  match s with
  | EmptyString => EmptyString
  | String c s' => String (lower_char c) (lower s')
  end.

Fixpoint lstrip (s : string) : string :=
  match s with
  | EmptyString => EmptyString
  | String c s' => if isspace c then lstrip s' else s
  end.

Fixpoint rstrip (s : string) : string :=
  match s with
  | EmptyString => EmptyString
  | String c s' =>
      match rstrip s' with
      | EmptyString => if isspace c then EmptyString else String c EmptyString
      | r => String c r
      end
  end.

(** [s.strip()] *)
Definition strip (s : string) : string := rstrip (lstrip s).

(** [s.startswith(p)] *)
Definition startswith (p s : string) : bool := String.prefix p s.

(** [p in s] for two strings. *)
Fixpoint contains (p s : string) : bool :=
  String.prefix p s ||
  match s with
  | EmptyString => false
  | String _ s' => contains p s'
  end.

(** One less replacement left; [None] is "no limit". *)
Definition spend (count : option nat) : option nat :=
  match count with
  | Some n => Some (Nat.pred n)
  | None => None
  end.

Definition exhausted (count : option nat) : bool :=
  match count with
  | Some O => true
  | _ => false
  end.

(** The scan of [s.replace(old, new, count)] for a non-empty [old]:
    left to right, the leftmost occurrence first, occurrences never
    overlapping. [skip] counts the characters of a matched occurrence
    still to be passed over. *)
Fixpoint replace_scan (old new : string) (skip : nat)
         (count : option nat) (s : string) : string :=
  match s with
  | EmptyString => EmptyString
  | String c s' =>
      match skip with
      | S k => replace_scan old new k count s'
      | O =>
          if negb (exhausted count) && String.prefix old s
          then new +:+ replace_scan old new (Nat.pred (String.length old))
                                    (spend count) s'
          else String c (replace_scan old new O count s')
      end
  end.

(** With an empty [old], [new] goes before every character and at the
    end, as long as the count allows. *)
Fixpoint replace_empty (new : string) (count : option nat)
         (s : string) : string :=
  if exhausted count then s
  else
    match s with
    | EmptyString => new
    | String c s' => new +:+ String c (replace_empty new (spend count) s')
    end.

(** [s.replace(old, new)] is [replace old new None s], and
    [s.replace(old, new, n)] is [replace old new (Some n) s]. *)
Definition replace (old new : string) (count : option nat)
           (s : string) : string :=
  match old with
  | EmptyString => replace_empty new count s
  | _ => replace_scan old new O count s
  end.

(** [s.encode('utf-8')]: one byte below U+0080, two bytes from there
    to U+00FF. *)
Fixpoint encode_utf8 (s : string) : list Z :=
  match s with
  | EmptyString => []
  | String c s' =>
      let n := code c in
      if n <? 128 then n :: encode_utf8 s'
      else Z.lor 192 (Z.shiftr n 6) :: Z.lor 128 (Z.land n 63)
           :: encode_utf8 s'
  end.

(** The characters of a string, one string each (what iterating over a
    [str] yields). *)
Fixpoint chars (s : string) : list string :=
  match s with
  | EmptyString => []
  | String c s' => String c EmptyString :: chars s'
  end.

Fixpoint join (sep : string) (l : list string) : string :=
  match l with
  | [] => EmptyString
  | [x] => x
  | x :: l' => x +:+ sep +:+ join sep l'
  end.

End Str.

(** ** MD5 (RFC 1321), the digest behind [hashlib.md5]

    Words are 32-bit: a [Z] in [0, 2^32), every sum reduced. *)

Module MD5.

Definition wrap (x : Z) : Z := x mod 2 ^ 32.

Definition rotl (x c : Z) : Z :=
  wrap (Z.lor (Z.shiftl x c) (Z.shiftr x (32 - c))).

Definition not32 (x : Z) : Z := Z.lxor x 0xFFFFFFFF.

Definition shifts : list Z :=
  [7; 12; 17; 22; 7; 12; 17; 22; 7; 12; 17; 22; 7; 12; 17; 22;
   5;  9; 14; 20; 5;  9; 14; 20; 5;  9; 14; 20; 5;  9; 14; 20;
   4; 11; 16; 23; 4; 11; 16; 23; 4; 11; 16; 23; 4; 11; 16; 23;
   6; 10; 15; 21; 6; 10; 15; 21; 6; 10; 15; 21; 6; 10; 15; 21].

(** [floor (2^32 * |sin (i + 1)|)] for [i] in 0..63. *)
Definition sines : list Z :=
  [0xd76aa478; 0xe8c7b756; 0x242070db; 0xc1bdceee;
   0xf57c0faf; 0x4787c62a; 0xa8304613; 0xfd469501;
   0x698098d8; 0x8b44f7af; 0xffff5bb1; 0x895cd7be;
   0x6b901122; 0xfd987193; 0xa679438e; 0x49b40821;
   0xf61e2562; 0xc040b340; 0x265e5a51; 0xe9b6c7aa;
   0xd62f105d; 0x02441453; 0xd8a1e681; 0xe7d3fbc8;
   0x21e1cde6; 0xc33707d6; 0xf4d50d87; 0x455a14ed;
   0xa9e3e905; 0xfcefa3f8; 0x676f02d9; 0x8d2a4c8a;
   0xfffa3942; 0x8771f681; 0x6d9d6122; 0xfde5380c;
   0xa4beea44; 0x4bdecfa9; 0xf6bb4b60; 0xbebfbc70;
   0x289b7ec6; 0xeaa127fa; 0xd4ef3085; 0x04881d05;
   0xd9d4d039; 0xe6db99e5; 0x1fa27cf8; 0xc4ac5665;
   0xf4292244; 0x432aff97; 0xab9423a7; 0xfc93a039;
   0x655b59c3; 0x8f0ccc92; 0xffeff47d; 0x85845dd1;
   0x6fa87e4f; 0xfe2ce6e0; 0xa3014314; 0x4e0811a1;
   0xf7537e82; 0xbd3af235; 0x2ad7d2bb; 0xeb86d391].

Record state := State { sa : Z; sb : Z; sc : Z; sd : Z }.

Definition init : state :=
  State 0x67452301 0xefcdab89 0x98badcfe 0x10325476.

(** The round function and the index of the message word of step [i]. *)
Definition mix (i b c d : Z) : Z * Z :=
  if i <? 16 then (Z.lor (Z.land b c) (Z.land (not32 b) d), i)
  else if i <? 32 then
    (Z.lor (Z.land d b) (Z.land (not32 d) c), (5 * i + 1) mod 16)
  else if i <? 48 then (Z.lxor (Z.lxor b c) d, (3 * i + 5) mod 16)
  else (Z.lxor c (Z.lor b (not32 d)), (7 * i) mod 16).

Definition step (m : list Z) (st : state) (i : nat) : state :=
  let '(f, g) := mix (Z.of_nat i) (sb st) (sc st) (sd st) in
  let f' := wrap (f + sa st + nth i sines 0 + nth (Z.to_nat g) m 0) in
  State (sd st) (wrap (sb st + rotl f' (nth i shifts 0))) (sb st) (sc st).

(** Four bytes, least significant first, make a word. *)
Fixpoint words (bytes : list Z) : list Z :=
  match bytes with
  | b0 :: b1 :: b2 :: b3 :: rest =>
      (b0 + 2 ^ 8 * b1 + 2 ^ 16 * b2 + 2 ^ 24 * b3) :: words rest
  | _ => []
  end.

Definition block (st : state) (bytes : list Z) : state :=
  let r := foldl (step (words bytes)) st (seq 0 64) in
  State (wrap (sa st + sa r)) (wrap (sb st + sb r))
        (wrap (sc st + sc r)) (wrap (sd st + sd r)).

Definition le_bytes (n : nat) (x : Z) : list Z :=
  map (fun k => Z.shiftr x (8 * Z.of_nat k) mod 256) (seq 0 n).

(** The message, a 1 bit, zeros up to 56 modulo 64, then the bit length
    of the message on 64 bits. *)
Definition pad (msg : list Z) : list Z :=
  let len := Z.of_nat (length msg) in
  let zeros := Z.to_nat ((55 - len) mod 64) in
  msg ++ 128 :: replicate zeros 0 ++ le_bytes 8 ((8 * len) mod 2 ^ 64).

Fixpoint blocks (n : nat) (st : state) (bytes : list Z) : state :=
  match n with
  | O => st
  | S n' => blocks n' (block st (take 64 bytes)) (drop 64 bytes)
  end.

(** [hashlib.md5(msg).digest()] *)
Definition digest (msg : list Z) : list Z :=
  let p := pad msg in
  let st := blocks (length p / 64) init p in
  le_bytes 4 (sa st) ++ le_bytes 4 (sb st)
  ++ le_bytes 4 (sc st) ++ le_bytes 4 (sd st).

Definition hex_digit (n : Z) : ascii :=
  if n <? 10 then Str.chr (48 + n) else Str.chr (87 + n).

Fixpoint hex (bytes : list Z) : string :=
  match bytes with
  | [] => EmptyString
  | b :: rest => String (hex_digit (b / 16)) (String (hex_digit (b mod 16)) (hex rest))
  end.

(** [hashlib.md5(msg).hexdigest()] *)
Definition hexdigest (msg : list Z) : string := hex (digest msg).

End MD5.

(** ** Python values

    What a decoded JSON payload is made of. *)

#[warnings="-register-all"] Inductive pyval :=
| PNone
| PBool (b : bool)
| PInt (z : Z)
| PStr (s : string)
| PList (l : list pyval)
| PDict (d : gmap string pyval).

(** The exceptions the serializers can end with. *)
Inductive exn :=
| Exception (msg : string)
| KeyError (key : string)
| AttributeError (attr : string)
| TypeError.

(** A computation returns a value or raises. *)
Inductive result (A : Type) :=
| Ok (a : A)
| Raise (e : exn).
Arguments Ok {A} a.
Arguments Raise {A} e.

#[global] Instance result_ret : MRet result := fun _ a => Ok a.
#[global] Instance result_bind : MBind result := fun _ _ f r =>
  match r with
  | Ok a => f a
  | Raise e => Raise e
  end.

Fixpoint foldM {A S : Type} (f : S -> A -> result S) (s : S) (l : list A)
  : result S :=
  match l with
  | [] => Ok s
  | x :: l' => s' ← f s x; foldM f s' l'
  end.

Module Py.

(** [bool(v)]: [None], [False], zero and empty containers are false. *)
Definition truthy (v : pyval) : bool :=
  match v with
  | PNone => false
  | PBool b => b
  | PInt z => negb (z =? 0)
  | PStr s => negb (String.length s =? 0)%nat
  | PList l => negb (length l =? 0)%nat
  | PDict d => negb (size d =? 0)%nat
  end.

Definition hex2 (n : Z) : string :=
  String (MD5.hex_digit (n / 16)) (String (MD5.hex_digit (n mod 16)) EmptyString).

Definition backslash : ascii := Str.chr 92.
Definition single_quote : ascii := Str.chr 39.
Definition double_quote : ascii := Str.chr 34.

Definition escape (s : string) : string := String backslash s.

(** [repr] of a string: single quotes unless the text has a single
    quote and no double quote; backslash, the quote in use, and what
    cannot be printed are escaped. *)
Definition repr_char (quote c : ascii) : string :=
  let n := Str.code c in
  if (n =? 92) || Ascii.eqb c quote then escape (String c EmptyString)
  else if n =? 9 then escape "t"
  else if n =? 10 then escape "n"
  else if n =? 13 then escape "r"
  else if (n <? 32) || ((127 <=? n) && (n <=? 160)) || (n =? 173)
  then escape ("x" +:+ hex2 n)
  else String c EmptyString.

Fixpoint repr_chars (quote : ascii) (s : string) : string :=
  match s with
  | EmptyString => EmptyString
  | String c s' => repr_char quote c +:+ repr_chars quote s'
  end.

Definition repr_str (s : string) : string :=
  let quote :=
    if Str.contains (String single_quote EmptyString) s
       && negb (Str.contains (String double_quote EmptyString) s)
    then double_quote else single_quote in
  String quote (repr_chars quote s) +:+ String quote EmptyString.

(** [repr(v)]. The items of a dictionary come in the order of the map,
    which need not be the order Python prints them in. *)
Fixpoint repr (v : pyval) : string :=
  match v with
  | PNone => "None"
  | PBool true => "True"
  | PBool false => "False"
  | PInt z => pretty z
  | PStr s => repr_str s
  | PList l => "[" +:+ Str.join ", " (map repr l) +:+ "]"
  | PDict d =>
      "{" +:+ Str.join ", "
        (map_fold (fun k x acc => (repr_str k +:+ ": " +:+ repr x) :: acc) [] d)
      +:+ "}"
  end.

(** [str(v)], also what a bare [{}] of [str.format] puts in. *)
Definition str (v : pyval) : string :=
  match v with
  | PStr s => s
  | _ => repr v
  end.

(** [v.get(key, default)]; only dictionaries have the method. *)
Definition get (v : pyval) (key : string) (default : pyval) : result pyval :=
  match v with
  | PDict d =>
      match d !! key with
      | Some x => Ok x
      | None => Ok default
      end
  | _ => Raise (AttributeError "get")
  end.

(** [v[key]] with a string key: a missing key is a [KeyError], and no
    other type takes a string as subscript. *)
Definition getitem (v : pyval) (key : string) : result pyval :=
  match v with
  | PDict d =>
      match d !! key with
      | Some x => Ok x
      | None => Raise (KeyError key)
      end
  | _ => Raise TypeError
  end.

(** [key in v] for a string [key]: key of a dictionary, element of a
    list, part of a string. *)
Definition contains (v : pyval) (key : string) : result bool :=
  match v with
  | PDict d => Ok (bool_decide (is_Some (d !! key)))
  | PList l =>
      Ok (existsb (fun x => match x with
                            | PStr s => String.eqb s key
                            | _ => false
                            end) l)
  | PStr s => Ok (Str.contains key s)
  | _ => Raise TypeError
  end.

(** What [for x in v] goes through: the elements of a list, the keys
    of a dictionary (in the order of the map), the characters of a
    string. *)
Definition iter (v : pyval) : result (list pyval) :=
  match v with
  | PList l => Ok l
  | PDict d => Ok (map (fun kv => PStr (fst kv)) (map_to_list d))
  | PStr s => Ok (map PStr (Str.chars s))
  | _ => Raise TypeError
  end.

(** [v.items()] *)
Definition items (v : pyval) : result (list (string * pyval)) :=
  match v with
  | PDict d => Ok (map_to_list d)
  | _ => Raise (AttributeError "items")
  end.

(** [dict(pairs)]: a later pair replaces an earlier one with its key. *)
Definition dict (pairs : list (string * pyval)) : gmap string pyval :=
  foldl (fun m kv => <[fst kv := snd kv]> m) ∅ pairs.

(** [v.startswith(p)] and [v.strip().lower()]: methods of [str] only. *)
Definition startswith (v : pyval) (p : string) : result bool :=
  match v with
  | PStr s => Ok (Str.startswith p s)
  | _ => Raise (AttributeError "startswith")
  end.

Definition strip_lower (v : pyval) : result string :=
  match v with
  | PStr s => Ok (Str.lower (Str.strip s))
  | _ => Raise (AttributeError "strip")
  end.

(** [v.append(x)]: a method of lists. *)
Definition append (v : pyval) : result (list pyval) :=
  match v with
  | PList l => Ok l
  | _ => Raise (AttributeError "append")
  end.

End Py.

(** ** The stored entities

    The ORM objects handed to the serializers, reduced to the attributes
    the serializers read. *)

Module Bug.
Record t := Make {
  id : pyval;
  bugzilla_id : pyval;
  payload : pyval;
  payload_data : pyval
}.
End Bug.

Module Analysis.
Record t := Make {
  id : pyval;
  name : pyval;
  parameters : pyval;
  bugs : list Bug.t
}.
End Analysis.

(** ** serialize_user (lines 4-24)

    A dictionary is updated in place and returned, so the result is the
    caller's dictionary with its new keys; anything else becomes both
    [email] and [real_name] of a new dictionary. *)

Definition gravatar (email : string) : string :=
  "https://www.gravatar.com/avatar/" +:+ MD5.hexdigest (Str.encode_utf8 email).

(** Lines 9-17: the dictionary the avatar is added to. *)
Definition user_record (user : pyval) : result (gmap string pyval) :=
  match user with
  | PDict d =>
      match d !! "email" with
      | Some _ => Ok d
      | None =>
          name ← Py.getitem user "name";
          Ok (<["email" := name]> d)
      end
  | _ => Ok (<["real_name" := user]> {[ "email" := user ]})
  end.

(** Lines 19-22. *)
Definition add_gravatar (out : gmap string pyval) : result pyval :=
  e ← Py.getitem (PDict out) "email";
  email ← Py.strip_lower e;
  Ok (PDict (<["avatar" := PStr (gravatar email)]> out)).

Definition serialize_user (user : pyval) : result pyval :=
  out ← user_record user;
  add_gravatar out.

(** ** serialize_bug (lines 26-105) *)

(** Lines 47-51: the uplift block. *)
Definition uplift_block (comment_id author comment : pyval) : pyval :=
  PDict {[ "id" := comment_id; "author" := author; "comment" := comment ]}.

(** Lines 38-51, "Build uplift": [None] unless the analysis has a comment
    and an author that are both true values. *)
Definition build_uplift (analysis : pyval) : result pyval :=
  c ← Py.get analysis "uplift_comment" PNone;
  requested ←
    (if Py.truthy c
     then a ← Py.get analysis "uplift_author" PNone; Ok (Py.truthy a)
     else Ok false);
  if requested : bool then
    author ← Py.getitem analysis "uplift_author";
    comment ← Py.getitem analysis "uplift_comment";
    has_html ← Py.contains comment "html";
    comment_html ←
      (if has_html : bool then Py.getitem comment "html"
       else Py.get comment "text" (PStr "No comment."));
    comment_id ← Py.getitem comment "id";
    user ← serialize_user author;
    Ok (uplift_block comment_id user comment_html)
  else Ok PNone.

Definition approval_base_flag : string := "approval-mozilla-".

(** Lines 61-62: [base_name] and [name] of the loop body, the name
    under which a flag is grouped, from the flag's name and status. *)
Definition base_name (flag_name : string) : string :=
  Str.replace approval_base_flag EmptyString None flag_name.

Definition version_name (flag_name : string) (status : pyval) : string :=
  base_name flag_name +:+ " " +:+ Py.str status.

(** Lines 64-68: an entry of [versions]. *)
Definition version_entry (name status : pyval) (attachments : list pyval)
  : pyval :=
  PDict {[ "name" := name;
           "attachments" := PList attachments;
           "status" := status ]}.

(** Lines 59-69: the body of the inner loop, for attachment [a] and one
    of its flags. In [versions[name]['attachments'].append(str(a['id']))]
    the list is reached before [a['id']] is looked up. *)
Definition add_flag (a : pyval) (versions : gmap string pyval) (flag : pyval)
  : result (gmap string pyval) :=
  flag_name ← Py.getitem flag "name";
  approval ← Py.startswith flag_name approval_base_flag;
  if approval : bool then
    match flag_name with
    | PStr n =>
        status ← Py.getitem flag "status";
        let name := version_name n status in
        let versions :=
          match versions !! name with
          | Some _ => versions
          | None =>
              <[name := version_entry flag_name status []]> versions
          end in
        entry ← Py.getitem (PDict versions) name;
        attachments ← Py.getitem entry "attachments";
        l ← Py.append attachments;
        a_id ← Py.getitem a "id";
        match entry with
        | PDict e =>
            Ok (<[name := PDict (<["attachments" := PList (l ++ [PStr (Py.str a_id)])]> e)]>
                versions)
        | _ => Raise TypeError
        end
    | _ => Raise (AttributeError "replace")
    end
  else Ok versions.

(** Lines 56-58, "Build versions": the two loops over the attachments
    and their flags. *)
Definition add_attachment (versions : gmap string pyval) (a : pyval)
  : result (gmap string pyval) :=
  fl ← Py.getitem a "flags";
  flags ← Py.iter fl;
  foldM (add_flag a) versions flags.

Definition build_versions (bug_data : pyval) : result (gmap string pyval) :=
  at_ ← Py.get bug_data "attachments" (PList []);
  attachments ← Py.iter at_;
  foldM add_attachment ∅ attachments.

Definition status_base_flag : string := "cf_status_".
Definition tracking_base_flag : string := "cf_tracking_".

(** Line 76, the list comprehension of [_filter_flags]: the items whose
    key starts with [base + 'firefox'], the first [base] of the key taken
    out. *)
Definition flag_items (base : string) (its : list (string * pyval))
  : list (string * pyval) :=
  omap (fun kv =>
          if Str.startswith (base +:+ "firefox") (fst kv)
          then Some (Str.replace base EmptyString (Some 1%nat) (fst kv), snd kv)
          else None) its.

(** [_filter_flags(base)], the bug data being the enclosing function's. *)
Definition _filter_flags (bug_data : pyval) (base : string) : result pyval :=
  its ← Py.items bug_data;
  Ok (PDict (Py.dict (flag_items base its))).

Definition serialize_bug (bug : Bug.t) : result pyval :=
  let payload := Bug.payload_data bug in
  if negb (Py.truthy payload) then Raise (Exception "Missing payload") else
  bug_data ← Py.get payload "bug" PNone;
  analysis ← Py.get payload "analysis" PNone;
  if negb (Py.truthy bug_data) || negb (Py.truthy analysis)
  then Raise (Exception "Missing Bug data or Analysis") else
  uplift ← build_uplift analysis;
  versions ← build_versions bug_data;
  url ← Py.get payload "url"
        (PStr ("https://bugzil.la/" +:+ Py.str (Bug.bugzilla_id bug)));
  summary ← Py.getitem bug_data "summary";
  keywords ← Py.getitem bug_data "keywords";
  flags_status ← _filter_flags bug_data status_base_flag;
  flags_tracking ← _filter_flags bug_data tracking_base_flag;
  creator ← (users ← Py.getitem analysis "users";
             u ← Py.getitem users "creator";
             serialize_user u);
  assignee ← (users ← Py.getitem analysis "users";
              u ← Py.getitem users "assignee";
              serialize_user u);
  reviewers ← (users ← Py.getitem analysis "users";
               rs ← Py.getitem users "reviewers";
               l ← Py.iter rs;
               mapM serialize_user l);
  changes_size ← Py.get analysis "changes_size" (PInt 0);
  patches ← Py.getitem analysis "patches";
  Ok (PDict (list_to_map
    [ ("id", Bug.id bug);
      ("bugzilla_id", Bug.bugzilla_id bug);
      ("url", url);
      ("summary", summary);
      ("keywords", keywords);
      ("flags_status", flags_status);
      ("flags_tracking", flags_tracking);
      ("creator", creator);
      ("assignee", assignee);
      ("reviewers", PList reviewers);
      ("changes_size", changes_size);
      ("uplift", uplift);
      ("patches", patches);
      ("versions", PDict versions) ])).

(** ** serialize_analysis (lines 107-124) *)

Definition serialize_analysis (analysis : Analysis.t) (full : bool)
  : result pyval :=
  let out : gmap string pyval :=
    list_to_map
      [ ("id", Analysis.id analysis);
        ("name", Analysis.name analysis);
        ("count", PInt (Z.of_nat (length (Analysis.bugs analysis))));
        ("parameters", Analysis.parameters analysis) ] in
  if full then
    bugs ← mapM serialize_bug
             (List.filter (fun b => Py.truthy (Bug.payload b))
                          (Analysis.bugs analysis));
    Ok (PDict (<["bugs" := PList bugs]> out))
  else Ok (PDict (<["bugs" := PList []]> out)).

(** ** Vocabulary of the statements *)

(** The inputs on which [serialize_user] returns: a bare string, a
    dictionary whose [email] is a string, or one without [email] whose
    [name] is a string. *)
Inductive valid_user : pyval -> Prop :=
| valid_bare (s : string) : valid_user (PStr s)
| valid_email (d : gmap string pyval) (e : string) :
    d !! "email" = Some (PStr e) -> valid_user (PDict d)
| valid_name (d : gmap string pyval) (n : string) :
    d !! "email" = None -> d !! "name" = Some (PStr n) -> valid_user (PDict d).

(** What [payload.get(key)] gives for a dictionary. *)
Definition get_or_none (p : gmap string pyval) (key : string) : pyval :=
  match p !! key with
  | Some x => x
  | None => PNone
  end.

(** The text shown for a comment: [html], else [text], else a fixed
    sentence. *)
Definition comment_text (comment : gmap string pyval) : pyval :=
  match comment !! "html" with
  | Some html => html
  | None =>
      match comment !! "text" with
      | Some text => text
      | None => PStr "No comment."
      end
  end.

(** The analysis holds a request when both values are true ones. *)
Definition uplift_requested (analysis : gmap string pyval) : bool :=
  Py.truthy (get_or_none analysis "uplift_comment")
  && Py.truthy (get_or_none analysis "uplift_author").

(** The bug [b], its bug data [d] given an [attachments] entry. *)
Definition with_attachments (b : Bug.t) (p d : gmap string pyval)
    (attachments : pyval) : Bug.t :=
  Bug.Make (Bug.id b) (Bug.bugzilla_id b) (Bug.payload b)
    (PDict (<["bug" := PDict (<["attachments" := attachments]> d)]> p)).

(** An attachment as the description has it: an id and flags, each
    flag a name and a status. [is_attachment a x] reads the payload
    value [a] as the attachment [x]. *)
Definition is_flag (f : pyval) (ns : string * pyval) : Prop :=
  exists fd : gmap string pyval,
    f = PDict fd /\ fd !! "name" = Some (PStr ns.1) /\ fd !! "status" = Some ns.2.

Definition is_attachment (a : pyval) (x : pyval * list (string * pyval))
  : Prop :=
  exists (ad : gmap string pyval) (fl : list pyval),
    a = PDict ad /\ ad !! "id" = Some x.1 /\ ad !! "flags" = Some (PList fl)
    /\ Forall2 is_flag fl x.2.

(** An approval: an attachment id with one approval flag of that
    attachment. [approvals] lists them in the order of the attachments
    and, within one, of its flags. *)
Record approval := Approval {
  ap_id : pyval;
  ap_name : string;
  ap_status : pyval
}.

Definition approvals_of (i : pyval) (flags : list (string * pyval))
  : list approval :=
  omap (fun ns => if Str.startswith approval_base_flag ns.1
                  then Some (Approval i ns.1 ns.2) else None) flags.

Definition approvals (atts : list (pyval * list (string * pyval)))
  : list approval :=
  concat (map (fun x => approvals_of x.1 x.2) atts).

Definition ap_key (a : approval) : string :=
  version_name (ap_name a) (ap_status a).

Definition ap_ids (l : list approval) : list pyval :=
  map (fun a => PStr (Py.str (ap_id a))) l.

(** The entry the description gives a name [key]: none without an
    approval under that name, else the name and status of the first such
    approval and the ids of them all. *)
Definition grouped (l : list approval) (key : string) : option pyval :=
  match filter (fun a => ap_key a = key) l with
  | [] => None
  | a :: m =>
      Some (version_entry (PStr (ap_name a)) (ap_status a) (ap_ids (a :: m)))
  end.

(** ** A complete payload

    A bug as the dashboard stores them: two attachments approved for
    beta, status and tracking fields, an uplift request. *)

Definition beta_approval : pyval :=
  PDict {[ "name" := PStr "approval-mozilla-beta"; "status" := PStr "+" ]}.

Definition example_bug_data : gmap string pyval :=
  {[ "summary" := PStr "Crash in nsDocShell";
     "keywords" := PList [PStr "crash"; PStr "regression"];
     "cf_status_firefox47" := PStr "affected";
     "cf_status_firefox48" := PStr "fixed";
     "cf_tracking_firefox47" := PStr "+";
     "cf_status_thunderbird_esr" := PStr "---";
     "attachments" :=
       PList [ PDict {[ "id" := PInt 42; "flags" := PList [beta_approval] ]};
               PDict {[ "id" := PInt 43; "flags" := PList [beta_approval] ]} ] ]}.

Definition example_analysis : gmap string pyval :=
  {[ "users" :=
       PDict {[ "creator" := PDict {[ "name" := PStr "alice";
                                      "email" := PStr "Alice@Example.org" ]};
                "assignee" := PDict {[ "name" := PStr "bob";
                                       "email" := PStr "bob@example.org" ]};
                "reviewers" := PList [PStr "carol@example.org"] ]};
     "patches" := PDict ∅;
     "changes_size" := PInt 12;
     "uplift_comment" := PDict {[ "id" := PInt 9; "text" := PStr "Please uplift." ]};
     "uplift_author" := PDict {[ "name" := PStr "bob@example.org" ]} ]}.

Definition example_bug : Bug.t :=
  Bug.Make (PInt 7) (PInt 1234567) (PStr "pickled")
    (PDict {[ "bug" := PDict example_bug_data;
              "analysis" := PDict example_analysis ]}).

Definition example_bug_no_attachments : Bug.t :=
  Bug.Make (PInt 7) (PInt 1234567) (PStr "pickled")
    (PDict {[ "bug" := PDict (delete "attachments" example_bug_data);
              "analysis" := PDict example_analysis ]}).

(** The example bug, its uplift author an empty string. *)
Definition example_bug_empty_author : Bug.t :=
  Bug.Make (PInt 7) (PInt 1234567) (PStr "pickled")
    (PDict {[ "bug" := PDict example_bug_data;
              "analysis" := PDict (<["uplift_author" := PStr EmptyString]> example_analysis) ]}).

(** An analysis of two bugs, the second one never fetched. *)
Definition example_entity : Analysis.t :=
  Analysis.Make (PInt 3) (PStr "Beta uplifts")
    (PDict {[ "channel" := PStr "beta" ]})
    [example_bug; Bug.Make (PInt 8) (PInt 7654321) PNone PNone].

(** ** Vocabulary of the further properties *)

(** A lower-case hexadecimal digit, and a string made of them. *)
Definition hex_char (c : ascii) : bool :=
  let n := Str.code c in
  ((48 <=? n) && (n <=? 57)) || ((97 <=? n) && (n <=? 102)).

Fixpoint all_hex (s : string) : bool :=
  match s with
  | EmptyString => true
  | String c s' => hex_char c && all_hex s'
  end.

(** Whether [user] is a dictionary with neither [email] nor [name]. *)
Definition lacks_name (user : pyval) : bool :=
  match user with
  | PDict d =>
      match d !! "email", d !! "name" with
      | None, None => true
      | _, _ => false
      end
  | _ => false
  end.

(** The fields of what [serialize_bug] returns. *)
Definition serialize_bug_keys : list string :=
  [ "id"; "bugzilla_id"; "url"; "summary"; "keywords"; "flags_status";
    "flags_tracking"; "creator"; "assignee"; "reviewers"; "changes_size";
    "uplift"; "patches"; "versions" ].

(** A payload with everything [serialize_bug] reads: the users of the
    analysis, *)
Definition valid_users (an : gmap string pyval) : Prop :=
  exists (ud : gmap string pyval) (c a : pyval) (rl : list pyval),
    an !! "users" = Some (PDict ud)
    /\ ud !! "creator" = Some c /\ valid_user c
    /\ ud !! "assignee" = Some a /\ valid_user a
    /\ ud !! "reviewers" = Some (PList rl) /\ Forall valid_user rl.

(** an uplift request that, when there is one, has a comment with an
    [id] and a valid author, *)
Definition valid_uplift (an : gmap string pyval) : Prop :=
  uplift_requested an = true ->
  exists (c : gmap string pyval) (a : pyval),
    an !! "uplift_comment" = Some (PDict c) /\ is_Some (c !! "id")
    /\ an !! "uplift_author" = Some a /\ valid_user a.

(** attachments that, when there are any, have an id and flags with a
    name and a status, *)
Definition valid_attachments (d : gmap string pyval) : Prop :=
  match d !! "attachments" with
  | None => True
  | Some x =>
      exists (al : list pyval) (atts : list (pyval * list (string * pyval))),
        x = PList al /\ Forall2 is_attachment al atts
  end.

(** and [summary], [keywords] and [patches]. *)
Definition well_formed (p : gmap string pyval) : Prop :=
  exists d an : gmap string pyval,
    p !! "bug" = Some (PDict d) /\ p !! "analysis" = Some (PDict an)
    /\ is_Some (d !! "summary") /\ is_Some (d !! "keywords")
    /\ valid_attachments d
    /\ is_Some (an !! "patches") /\ valid_users an /\ valid_uplift an.

(** The least a bug needs to be serialized. *)
Definition minimal_bug : Bug.t :=
  Bug.Make (PInt 1) (PInt 1000) (PStr "pickled")
    (PDict {[ "bug" := PDict {[ "summary" := PStr "Crash";
                                "keywords" := PList [] ]};
              "analysis" :=
                PDict {[ "users" :=
                           PDict {[ "creator" := PStr "alice@example.org";
                                    "assignee" := PStr "bob@example.org";
                                    "reviewers" := PList [] ]};
                         "patches" := PDict ∅ ]} ]}).

(** A bug whose uplift comment has a text and no [id]. *)
Definition example_bug_comment_without_id : Bug.t :=
  Bug.Make (PInt 7) (PInt 1234567) (PStr "pickled")
    (PDict {[ "bug" := PDict example_bug_data;
              "analysis" :=
                PDict (<["uplift_comment" := PDict {[ "text" := PStr "Please uplift." ]}]>
                       example_analysis) ]}).

(** A flag that is not an approval: its name does not start with
    [approval-mozilla-]; and an attachment with flags of that kind only.
    Neither needs a [status] or an [id]. *)
Definition is_other_flag (f : pyval) : Prop :=
  exists (fd : gmap string pyval) (n : string),
    f = PDict fd /\ fd !! "name" = Some (PStr n)
    /\ Str.startswith approval_base_flag n = false.

Definition has_no_approval (a : pyval) : Prop :=
  exists (ad : gmap string pyval) (fl : list pyval),
    a = PDict ad /\ ad !! "flags" = Some (PList fl) /\ Forall is_other_flag fl.

(** The example bug with a third attachment, which has a review flag
    and no id. *)
Definition review_flag : pyval :=
  PDict {[ "name" := PStr "review"; "status" := PStr "?" ]}.

Definition example_attachments : list pyval :=
  [ PDict {[ "id" := PInt 42; "flags" := PList [beta_approval] ]};
    PDict {[ "id" := PInt 43; "flags" := PList [review_flag; beta_approval] ]} ].

(** The example bug with [attachments] set to [None]. *)
Definition example_bug_null_attachments : Bug.t :=
  Bug.Make (PInt 7) (PInt 1234567) (PStr "pickled")
    (PDict {[ "bug" := PDict (<["attachments" := PNone]> example_bug_data);
              "analysis" := PDict example_analysis ]}).

(** A bug with a stored payload that decodes to nothing, and an analysis
    that has it after the example bug. *)
Definition undecoded_bug : Bug.t :=
  Bug.Make (PInt 9) (PInt 2222222) (PStr "pickled") PNone.

Definition example_entity_undecoded : Analysis.t :=
  Analysis.Make (PInt 4) (PStr "Release uplifts") (PDict ∅)
    [Bug.Make (PInt 8) (PInt 7654321) PNone PNone; example_bug; undecoded_bug].

(** The example bug without [keywords]. *)
Definition example_bug_no_keywords : Bug.t :=
  Bug.Make (PInt 7) (PInt 1234567) (PStr "pickled")
    (PDict {[ "bug" := PDict (delete "keywords" example_bug_data);
              "analysis" := PDict example_analysis ]}).

(** * Properties *)

(** ** The primitives on known values *)

Example md5_empty :
  MD5.hexdigest [] = "d41d8cd98f00b204e9800998ecf8427e".
Proof. vm_compute. reflexivity. Qed.

Example md5_abc :
  MD5.hexdigest (Str.encode_utf8 "abc") = "900150983cd24fb0d6963f7d28e17f72".
Proof. vm_compute. reflexivity. Qed.

Example md5_two_blocks :
  MD5.hexdigest (Str.encode_utf8
    "12345678901234567890123456789012345678901234567890123456789012345678901234567890")
  = "57edf4a22be3c955ac49da2e2107b67a".
Proof. vm_compute. reflexivity. Qed.

Example replace_examples :
  Str.replace EmptyString "-" None "abc" = "-a-b-c-"
  /\ Str.replace EmptyString "-" (Some 2%nat) "abc" = "-a-bc"
  /\ Str.replace "aa" "b" None "aaa" = "ba"
  /\ Str.replace "ab" EmptyString (Some 1%nat) "abab" = "ab"
  /\ Str.replace "a" "yy" (Some 1%nat) "xaax" = "xyyax".
Proof. vm_compute. repeat split. Qed.

Example strip_lower_example :
  Str.lower (Str.strip "  Foo@Bar.com ") = "foo@bar.com".
Proof. vm_compute. reflexivity. Qed.

Example repr_examples :
  Py.repr (PList [PInt 1; PStr "x"; PNone; PBool true; PInt (-5)])
  = "[1, 'x', None, True, -5]"
  /\ Py.repr (PDict {[ "a" := PList [] ]}) = "{'a': []}"
  /\ Py.repr (PStr "a'b") = String Py.double_quote ("a'b" +:+ String Py.double_quote EmptyString)
  /\ Py.str (PInt 42) = "42".
Proof. vm_compute. repeat split. Qed.

(** ** Strings *)

Section string_facts.

Lemma append_nil (r : string) : EmptyString +:+ r = r.
Proof. reflexivity. Qed.

Lemma append_cons (c : ascii) (p r : string) :
  String c p +:+ r = String c (p +:+ r).
Proof. reflexivity. Qed.

Lemma prefix_app (p r : string) : String.prefix p (p +:+ r) = true.
Proof.
  induction p as [|c p IH].
  - by destruct r.
  - rewrite append_cons. simpl.
    destruct (ascii_dec c c); [exact IH | congruence].
Qed.

Lemma prefix_inv (p s : string) :
  String.prefix p s = true -> exists r, s = p +:+ r.
Proof.
  revert s. induction p as [|c p IH]; intros s H.
  - by exists s.
  - destruct s as [|c' s]; simpl in H; [discriminate|].
    destruct (ascii_dec c c') as [->|]; [|discriminate].
    destruct (IH _ H) as [r ->]. by exists r.
Qed.

Lemma append_assoc (a b c : string) : (a +:+ b) +:+ c = a +:+ (b +:+ c).
Proof.
  induction a as [|x a IH]; [done|].
  rewrite !append_cons. by f_equal.
Qed.

(** Once a match has begun, the scan passes over its characters. *)
Lemma replace_scan_skip (old new p r : string) (count : option nat) :
  Str.replace_scan old new (String.length p) count (p +:+ r)
  = Str.replace_scan old new O count r.
Proof.
  induction p as [|c p IH]; [by destruct r|].
  rewrite append_cons. exact IH.
Qed.

(** No replacement left: the rest is copied. *)
Lemma replace_scan_exhausted (old new r : string) :
  Str.replace_scan old new O (Some O) r = r.
Proof. induction r as [|c r IH]; simpl; [done | by rewrite IH]. Qed.

(** A string that starts with [old]: the first replacement takes that
    occurrence, and the scan goes on after it. *)
Lemma replace_scan_prefix (old new r : string) (count : option nat) :
  old <> EmptyString -> Str.exhausted count = false ->
  Str.replace_scan old new O count (old +:+ r)
  = new +:+ Str.replace_scan old new O (Str.spend count) r.
Proof.
  intros Hne Hc. destruct old as [|c old]; [done|].
  pose proof (prefix_app (String c old) r) as Hp.
  rewrite append_cons in Hp |- *.
  cbn [Str.replace_scan]. rewrite Hc, Hp.
  cbn [negb andb String.length Nat.pred].
  by rewrite replace_scan_skip.
Qed.

(** [(old + r).replace(old, '', 1) = r] *)
Lemma replace_first_prefix (old r : string) :
  old <> EmptyString ->
  Str.replace old EmptyString (Some 1%nat) (old +:+ r) = r.
Proof.
  intros Hne.
  assert (Str.replace old EmptyString (Some 1%nat) (old +:+ r)
          = Str.replace_scan old EmptyString O (Some 1%nat) (old +:+ r)) as ->
    by by destruct old.
  rewrite replace_scan_prefix by done.
  rewrite append_nil. apply replace_scan_exhausted.
Qed.

(** [(old + r).replace(old, '') = r.replace(old, '')]: the scan does
    not stop at the first occurrence. *)
Lemma replace_all_prefix (old r : string) :
  old <> EmptyString ->
  Str.replace old EmptyString None (old +:+ r)
  = Str.replace old EmptyString None r.
Proof.
  intros Hne.
  assert (forall s, Str.replace old EmptyString None s
                    = Str.replace_scan old EmptyString O None s) as E
    by by destruct old.
  rewrite !E, replace_scan_prefix by done. apply append_nil.
Qed.

(** Without an occurrence of [old] nothing is replaced. *)
Lemma replace_scan_absent (old new s : string) (count : option nat) :
  Str.contains old s = false -> Str.replace_scan old new O count s = s.
Proof.
  induction s as [|c s IH]; intros H; [done|].
  cbn [Str.contains] in H. apply orb_false_elim in H as [Hp Hs].
  cbn [Str.replace_scan]. rewrite Hp, andb_false_r. by rewrite IH.
Qed.

End string_facts.

(** ** Computations that return *)

Lemma bind_Ok {A B : Type} (r : result A) (f : A -> result B) (b : B) :
  r ≫= f = Ok b -> exists a, r = Ok a /\ f a = Ok b.
Proof. destruct r as [a|e]; [by exists a | done]. Qed.

(** Unfolds one [x ← r; k] of a hypothesis that says the whole returns. *)
Ltac bind_inv H :=
  let a := fresh "a" in
  let Ha := fresh "H" a in
  apply bind_Ok in H as (a & Ha & H).

Lemma get_Ok (v : pyval) (key : string) (default x : pyval) :
  Py.get v key default = Ok x ->
  exists d, v = PDict d /\ x = match d !! key with Some y => y | None => default end.
Proof.
  destruct v; try done. intros H. eexists; split; [done|].
  simpl in H. by destruct (_ !! key); injection H.
Qed.

Lemma getitem_Ok (v : pyval) (key : string) (x : pyval) :
  Py.getitem v key = Ok x -> exists d, v = PDict d /\ d !! key = Some x.
Proof.
  destruct v; try done. intros H. eexists; split; [done|].
  simpl in H. destruct (_ !! key); [by injection H as -> | done].
Qed.

Lemma strip_lower_Ok (v : pyval) (s : string) :
  Py.strip_lower v = Ok s -> exists e, v = PStr e /\ s = Str.lower (Str.strip e).
Proof. destruct v; try done. intros [= <-]. by eexists. Qed.

(** A non-empty dictionary is a true value. *)
Lemma truthy_dict (d : gmap string pyval) (key : string) (x : pyval) :
  d !! key = Some x -> Py.truthy (PDict d) = true.
Proof.
  intros H. simpl. destruct (size d) eqn:E; [|done].
  apply map_size_empty_iff in E. subst d. by rewrite lookup_empty in H.
Qed.

(** ** serialize_user *)

Lemma add_gravatar_Ok (out : gmap string pyval) (o : pyval) :
  add_gravatar out = Ok o ->
  exists e, out !! "email" = Some (PStr e)
            /\ o = PDict (<["avatar" := PStr (gravatar (Str.lower (Str.strip e)))]> out).
Proof.
  unfold add_gravatar. intros H. bind_inv H. bind_inv H.
  apply getitem_Ok in Ha as (d & [= <-] & Hd).
  apply strip_lower_Ok in Ha0 as (e & -> & ->).
  exists e. split; [done|]. by injection H.
Qed.

Lemma add_gravatar_email (out : gmap string pyval) (e : string) :
  out !! "email" = Some (PStr e) ->
  add_gravatar out
  = Ok (PDict (<["avatar" := PStr (gravatar (Str.lower (Str.strip e)))]> out)).
Proof. intros H. unfold add_gravatar. simpl. by rewrite H. Qed.

Lemma serialize_user_Ok (u o : pyval) :
  serialize_user u = Ok o ->
  exists out e,
    user_record u = Ok out /\ out !! "email" = Some (PStr e)
    /\ o = PDict (<["avatar" := PStr (gravatar (Str.lower (Str.strip e)))]> out).
Proof.
  unfold serialize_user. intros H. bind_inv H.
  apply add_gravatar_Ok in H as (e & He & ->). by exists a, e.
Qed.

Lemma serialize_user_valid (u : pyval) :
  valid_user u <-> exists o, serialize_user u = Ok o.
Proof.
  split.
  - intros [s|d e He|d n He Hn]; unfold serialize_user; simpl.
    + eexists. by apply add_gravatar_email.
    + rewrite He. simpl. eexists. by apply add_gravatar_email.
    + rewrite He, Hn. simpl. eexists.
      apply add_gravatar_email. by rewrite lookup_insert_eq.
  - intros (o & H). apply serialize_user_Ok in H as (out & e & Hu & He & _).
    destruct u as [| | |s|l|d]; simpl in Hu;
      try (injection Hu as <-;
           rewrite lookup_insert_ne, lookup_singleton_eq in He by done;
           by injection He).
    + apply valid_bare.
    + destruct (d !! "email") as [x|] eqn:Hd.
      * injection Hu as <-. by eapply valid_email.
      * destruct (d !! "name") as [x|] eqn:Hn; [|done]. simpl in Hu.
        injection Hu as <-.
        rewrite lookup_insert_eq in He. injection He as ->.
        by eapply valid_name.
Qed.

(** C6. On every valid user [serialize_user] returns a dictionary that
    has an [email] and an [avatar]; when the input is a dictionary
    without [email], the [email] of the output is the [name] of the
    input. (The valid users are exactly those on which the function
    returns, see [serialize_user_valid].) *)
Theorem serialize_user_email_avatar (u : pyval) :
  valid_user u ->
  exists out : gmap string pyval,
    serialize_user u = Ok (PDict out)
    /\ is_Some (out !! "email")
    /\ is_Some (out !! "avatar")
    /\ forall d : gmap string pyval,
         u = PDict d -> d !! "email" = None -> out !! "email" = d !! "name".
Proof.
  intros Hv. pose proof Hv as Hv'.
  apply serialize_user_valid in Hv' as (o & Ho).
  pose proof Ho as Ho'.
  apply serialize_user_Ok in Ho' as (out & e & Hu & He & ->).
  eexists. split; [exact Ho|]. split; [|split].
  - rewrite lookup_insert_ne by done. by eexists.
  - rewrite lookup_insert_eq. by eexists.
  - intros d -> Hd. simpl in Hu. rewrite Hd in Hu.
    destruct (d !! "name") as [x|]; [|done]. simpl in Hu. injection Hu as <-.
    rewrite lookup_insert_ne by done. by rewrite lookup_insert_eq.
Qed.

Lemma serialize_user_email_avatar_witness :
  exists out : gmap string pyval,
    serialize_user (PDict {[ "name" := PStr "Sylvestre" ]}) = Ok (PDict out)
    /\ out !! "email" = Some (PStr "Sylvestre")
    /\ is_Some (out !! "avatar").
Proof.
  destruct (serialize_user_email_avatar (PDict {[ "name" := PStr "Sylvestre" ]}))
    as (out & Hs & _ & Ha & Hn).
  - by apply (valid_name _ "Sylvestre").
  - exists out. split; [exact Hs|]. split; [|exact Ha].
    by rewrite (Hn _ eq_refl).
Defined.

(** C7. The avatar is the gravatar address of the MD5 digest, in
    hexadecimal, of the email stripped and lower-cased, and nothing else:
    two users whose emails differ by case and surrounding white space
    only get the same avatar. *)
Theorem avatar_of_normalized_email
    (u1 u2 : pyval) (o1 o2 : gmap string pyval) (e1 e2 : string) :
  serialize_user u1 = Ok (PDict o1) ->
  serialize_user u2 = Ok (PDict o2) ->
  o1 !! "email" = Some (PStr e1) ->
  o2 !! "email" = Some (PStr e2) ->
  Str.lower (Str.strip e1) = Str.lower (Str.strip e2) ->
  o1 !! "avatar"
  = Some (PStr ("https://www.gravatar.com/avatar/"
                +:+ MD5.hexdigest (Str.encode_utf8 (Str.lower (Str.strip e1)))))
  /\ o2 !! "avatar" = o1 !! "avatar".
Proof.
  intros H1 H2 He1 He2 Hn.
  apply serialize_user_Ok in H1 as (out1 & x1 & _ & Hx1 & [= ->]).
  apply serialize_user_Ok in H2 as (out2 & x2 & _ & Hx2 & [= ->]).
  rewrite lookup_insert_ne in He1, He2 by done.
  rewrite Hx1 in He1. rewrite Hx2 in He2.
  injection He1 as ->. injection He2 as ->.
  rewrite !lookup_insert_eq. unfold gravatar. by rewrite Hn.
Qed.

Lemma avatar_of_normalized_email_witness :
  let o1 : gmap string pyval :=
    <["avatar" := PStr "https://www.gravatar.com/avatar/f3ada405ce890b6f8204094deb12d8a8"]>
      (<["real_name" := PStr "Foo@Bar.com "]> {[ "email" := PStr "Foo@Bar.com " ]}) in
  let o2 : gmap string pyval :=
    <["avatar" := PStr "https://www.gravatar.com/avatar/f3ada405ce890b6f8204094deb12d8a8"]>
      (<["real_name" := PStr "foo@bar.com"]> {[ "email" := PStr "foo@bar.com" ]}) in
  serialize_user (PStr "Foo@Bar.com ") = Ok (PDict o1)
  /\ serialize_user (PStr "foo@bar.com") = Ok (PDict o2)
  /\ o2 !! "avatar" = o1 !! "avatar".
Proof.
  intros o1 o2.
  assert (serialize_user (PStr "Foo@Bar.com ") = Ok (PDict o1)) as H1
    by (vm_compute; reflexivity).
  assert (serialize_user (PStr "foo@bar.com") = Ok (PDict o2)) as H2
    by (vm_compute; reflexivity).
  split; [exact H1|]. split; [exact H2|].
  apply (avatar_of_normalized_email _ _ o1 o2 "Foo@Bar.com " "foo@bar.com" H1 H2);
    vm_compute; reflexivity.
Defined.

(** ** serialize_bug: the two guards *)

Lemma serialize_bug_no_payload (b : Bug.t) :
  Py.truthy (Bug.payload_data b) = false ->
  serialize_bug b = Raise (Exception "Missing payload").
Proof. intros H. unfold serialize_bug. by rewrite H. Qed.

Lemma serialize_bug_no_substructure (b : Bug.t) (p : gmap string pyval) :
  Bug.payload_data b = PDict p ->
  Py.truthy (PDict p) = true ->
  Py.truthy (get_or_none p "bug") = false
  \/ Py.truthy (get_or_none p "analysis") = false ->
  serialize_bug b = Raise (Exception "Missing Bug data or Analysis").
Proof.
  intros Hp Ht Hf. unfold serialize_bug. rewrite Hp, Ht.
  unfold get_or_none in Hf. simpl.
  destruct (p !! "bug") as [x|]; destruct (p !! "analysis") as [y|]; simpl;
    destruct Hf as [Hf|Hf]; simpl in Hf; rewrite ?Hf, ?orb_true_r; done.
Qed.

(** What a returned value says about the run that produced it. *)
Lemma serialize_bug_Ok (b : Bug.t) (out : pyval) :
  serialize_bug b = Ok out ->
  exists (p bug_data analysis o : gmap string pyval)
         (uplift flags_status flags_tracking summary keywords : pyval)
         (versions : gmap string pyval),
    Bug.payload_data b = PDict p
    /\ p !! "bug" = Some (PDict bug_data)
    /\ p !! "analysis" = Some (PDict analysis)
    /\ build_uplift (PDict analysis) = Ok uplift
    /\ build_versions (PDict bug_data) = Ok versions
    /\ _filter_flags (PDict bug_data) status_base_flag = Ok flags_status
    /\ _filter_flags (PDict bug_data) tracking_base_flag = Ok flags_tracking
    /\ bug_data !! "summary" = Some summary
    /\ bug_data !! "keywords" = Some keywords
    /\ out = PDict o
    /\ o !! "id" = Some (Bug.id b)
    /\ o !! "bugzilla_id" = Some (Bug.bugzilla_id b)
    /\ o !! "summary" = Some summary
    /\ o !! "keywords" = Some keywords
    /\ o !! "flags_status" = Some flags_status
    /\ o !! "flags_tracking" = Some flags_tracking
    /\ o !! "uplift" = Some uplift
    /\ o !! "versions" = Some (PDict versions).
Proof.
  unfold serialize_bug. intros H.
  destruct (Py.truthy (Bug.payload_data b)) eqn:Ht; [|done].
  cbn [negb] in H. bind_inv H. bind_inv H.
  apply get_Ok in Ha as (p & Hp & Hbug).
  apply get_Ok in Ha0 as (p' & Hp' & Han).
  rewrite Hp in Hp'. injection Hp' as <-.
  destruct (negb (Py.truthy a) || negb (Py.truthy a0)) eqn:Hg; [done|].
  apply orb_false_elim in Hg as [Hg1 Hg2].
  apply negb_false_iff in Hg1, Hg2.
  bind_inv H. rename a1 into uplift, Ha1 into Hup.
  bind_inv H. rename a1 into versions, Ha1 into Hver.
  bind_inv H. bind_inv H. rename a2 into summary, Ha2 into Hsum.
  bind_inv H. rename a2 into keywords, Ha2 into Hkey.
  bind_inv H. rename a2 into fs, Ha2 into Hfs.
  bind_inv H. rename a2 into ft, Ha2 into Hft.
  do 5 bind_inv H. injection H as <-.
  assert (exists analysis, a0 = PDict analysis) as (analysis & ->).
  { unfold build_uplift in Hup. bind_inv Hup.
    apply get_Ok in Ha7 as (? & -> & _). by eexists. }
  apply getitem_Ok in Hsum as (bug_data & -> & Hsum).
  apply getitem_Ok in Hkey as (? & [= <-] & Hkey).
  assert (p !! "bug" = Some (PDict bug_data)) as Hb.
  { destruct (p !! "bug"); [by subst | done]. }
  assert (p !! "analysis" = Some (PDict analysis)) as Ha.
  { destruct (p !! "analysis"); [by subst | done]. }
  exists p, bug_data, analysis. eexists.
  exists uplift, fs, ft, summary, keywords, versions.
  repeat split; first [done | reflexivity].
Qed.

(** C1. [serialize_bug] raises when [payload_data] is empty or absent
    (any false value: [None], an empty dictionary), and when the payload
    has no [bug] or no [analysis] key; in both cases an [Exception] ends
    the call and nothing is returned. *)
Theorem serialize_bug_raises_without_data (b : Bug.t) :
  Py.truthy (Bug.payload_data b) = false
  \/ (exists p : gmap string pyval,
        Bug.payload_data b = PDict p
        /\ (p !! "bug" = None \/ p !! "analysis" = None)) ->
  serialize_bug b
  = Raise (Exception (if Py.truthy (Bug.payload_data b)
                      then "Missing Bug data or Analysis"
                      else "Missing payload"))
  /\ forall out : pyval, serialize_bug b <> Ok out.
Proof.
  intros H.
  assert (serialize_bug b
          = Raise (Exception (if Py.truthy (Bug.payload_data b)
                              then "Missing Bug data or Analysis"
                              else "Missing payload"))) as E.
  { destruct H as [H|(p & Hp & H)].
    - rewrite H. by apply serialize_bug_no_payload.
    - destruct (Py.truthy (Bug.payload_data b)) eqn:Ht.
      + rewrite Hp in Ht. apply (serialize_bug_no_substructure b p Hp Ht).
        unfold get_or_none. destruct H as [-> | ->]; auto.
      + by apply serialize_bug_no_payload. }
  split; [exact E|]. intros out. by rewrite E.
Qed.

Lemma serialize_bug_raises_without_data_witness :
  serialize_bug (Bug.Make (PInt 1) (PInt 1234) (PStr "{}") (PDict ∅))
  = Raise (Exception "Missing payload")
  /\ serialize_bug
       (Bug.Make (PInt 1) (PInt 1234) (PStr "blob")
          (PDict {[ "bug" := PDict {[ "summary" := PStr "Crash" ]} ]}))
     = Raise (Exception "Missing Bug data or Analysis").
Proof.
  split.
  - refine (proj1 (serialize_bug_raises_without_data
             (Bug.Make (PInt 1) (PInt 1234) (PStr "{}") (PDict ∅)) _)).
    left. reflexivity.
  - refine (proj1 (serialize_bug_raises_without_data
             (Bug.Make (PInt 1) (PInt 1234) (PStr "blob")
                (PDict {[ "bug" := PDict {[ "summary" := PStr "Crash" ]} ]})) _)).
    right. eexists. split; [reflexivity|]. right. reflexivity.
Defined.

(** C9. The second guard tests values, not keys: a payload whose [bug]
    or [analysis] is there with a false value (an empty dictionary,
    [None], ...) raises the same error as one where the key is missing. *)
Theorem serialize_bug_raises_on_false_value
    (b : Bug.t) (p : gmap string pyval) (v : pyval) :
  Bug.payload_data b = PDict p ->
  p !! "bug" = Some v \/ p !! "analysis" = Some v ->
  Py.truthy v = false ->
  serialize_bug b = Raise (Exception "Missing Bug data or Analysis").
Proof.
  intros Hp Hk Hv. apply (serialize_bug_no_substructure b p Hp).
  - destruct Hk as [Hk|Hk]; by eapply truthy_dict.
  - unfold get_or_none. destruct Hk as [-> | ->]; auto.
Qed.

Lemma serialize_bug_raises_on_false_value_witness :
  serialize_bug
    (Bug.Make (PInt 1) (PInt 1234) (PStr "blob")
       (PDict (<["analysis" := PDict {[ "patches" := PList [] ]}]>
               {[ "bug" := PDict ∅ ]})))
  = Raise (Exception "Missing Bug data or Analysis").
Proof.
  apply (serialize_bug_raises_on_false_value _
           (<["analysis" := PDict {[ "patches" := PList [] ]}]>
            {[ "bug" := PDict ∅ ]}) (PDict ∅)).
  - reflexivity.
  - left. reflexivity.
  - reflexivity.
Defined.

(** ** Status and tracking flags *)

Section filter_flags.

Lemma dict_snoc (l : list (string * pyval)) (k : string) (v : pyval) :
  Py.dict (l ++ [(k, v)]) = <[k := v]> (Py.dict l).
Proof. unfold Py.dict. by rewrite foldl_app. Qed.

(** With keys all different, the dictionary holds the pairs it was
    built from. *)
Lemma dict_lookup (l : list (string * pyval)) (k : string) (v : pyval) :
  NoDup l.*1 -> Py.dict l !! k = Some v <-> (k, v) ∈ l.
Proof.
  induction l as [|[k0 v0] l IH] using rev_ind; intros Hnd.
  - unfold Py.dict; simpl. rewrite lookup_empty. split; [done|].
    by intros ?%elem_of_nil.
  - rewrite fmap_app in Hnd. apply NoDup_app in Hnd as (Hl & Hk0 & _).
    rewrite dict_snoc, elem_of_app, list_elem_of_singleton.
    destruct (decide (k0 = k)) as [->|Hne].
    + rewrite lookup_insert_eq. split.
      * intros [= ->]. by right.
      * intros [Hin|[= ->]]; [|done]. exfalso.
        apply (Hk0 k); [|by constructor].
        apply list_elem_of_fmap. by exists (k, v).
    + rewrite lookup_insert_ne by done. rewrite IH by done.
      split; [by left|]. intros [?|[= ? ?]]; [done | congruence].
Qed.

Variable base : string.
Hypothesis base_not_empty : base <> EmptyString.

(** A kept key is [base] followed by the new key, and the new key
    still starts with [firefox]. *)
Lemma flag_items_elem (its : list (string * pyval)) (k : string) (v : pyval) :
  (k, v) ∈ flag_items base its
  <-> Str.startswith "firefox" k = true /\ (base +:+ k, v) ∈ its.
Proof.
  unfold flag_items. rewrite list_elem_of_omap. split.
  - intros ([k0 v0] & Hin & Hf). simpl in Hf.
    destruct (Str.startswith (base +:+ "firefox") k0) eqn:Hp; [|done].
    apply prefix_inv in Hp as (r & ->). rewrite append_assoc in Hf, Hin.
    rewrite replace_first_prefix in Hf by done. injection Hf as <- <-.
    split; [apply prefix_app | done].
  - intros (Hp & Hin). exists (base +:+ k, v). split; [done|]. simpl.
    apply prefix_inv in Hp as (r & ->).
    unfold Str.startswith. rewrite <- append_assoc, prefix_app.
    rewrite append_assoc. by rewrite replace_first_prefix.
Qed.

Lemma flag_items_NoDup (its : list (string * pyval)) :
  NoDup its.*1 -> NoDup (flag_items base its).*1.
Proof.
  induction its as [|[k0 v0] its IH]; intros Hnd; [constructor|].
  rewrite fmap_cons in Hnd. apply NoDup_cons in Hnd as [Hk0 Hnd].
  unfold flag_items. cbn [omap list_omap fst snd].
  destruct (Str.startswith (base +:+ "firefox") k0) eqn:Hp; [|by apply IH].
  rewrite fmap_cons. apply NoDup_cons. split; [|by apply IH].
  cbn [fst]. intros ([k v] & Hk & Hin)%list_elem_of_fmap. simpl in Hk.
  apply flag_items_elem in Hin as [_ Hin]. apply Hk0.
  apply list_elem_of_fmap. exists (base +:+ k, v). split; [|done]. simpl.
  apply prefix_inv in Hp as (r & ->). rewrite append_assoc in Hk |- *.
  rewrite replace_first_prefix in Hk by done. by subst k.
Qed.

(** [_filter_flags] on a dictionary: the fields [base + k] with [k]
    starting with [firefox], under the key [k], with their value. *)
Lemma filter_flags_lookup (d : gmap string pyval) :
  exists fs : gmap string pyval,
    _filter_flags (PDict d) base = Ok (PDict fs)
    /\ forall k : string,
         fs !! k = if Str.startswith "firefox" k
                   then d !! (base +:+ k) else None.
Proof.
  eexists. split; [reflexivity|]. intros k.
  pose proof (flag_items_NoDup (map_to_list d) (NoDup_fst_map_to_list d)) as Hnd.
  apply option_eq. intros v.
  rewrite (dict_lookup _ k v Hnd), flag_items_elem, elem_of_map_to_list.
  destruct (Str.startswith "firefox" k); [tauto|].
  split; [by intros [? _] | done].
Qed.

End filter_flags.

Example example_bug_flags :
  exists o : gmap string pyval,
    serialize_bug example_bug = Ok (PDict o)
    /\ o !! "flags_status"
       = Some (PDict {[ "firefox47" := PStr "affected"; "firefox48" := PStr "fixed" ]})
    /\ o !! "flags_tracking" = Some (PDict {[ "firefox47" := PStr "+" ]})
    /\ o !! "url" = Some (PStr "https://bugzil.la/1234567")
    /\ o !! "changes_size" = Some (PInt 12).
Proof. eexists. split; [reflexivity|]. repeat split; vm_compute; reflexivity. Qed.

(** C8. [flags_status] and [flags_tracking] are built apart, one from
    the fields that start with [cf_status_firefox], the other from those
    that start with [cf_tracking_firefox]; a field is kept under its name
    without [cf_status_] (or [cf_tracking_]), a key that still starts with
    [firefox], and with its value as it is. *)
Theorem flags_by_prefix (b : Bug.t) (o : gmap string pyval) :
  serialize_bug b = Ok (PDict o) ->
  exists p bug_data flags_status flags_tracking : gmap string pyval,
    Bug.payload_data b = PDict p
    /\ p !! "bug" = Some (PDict bug_data)
    /\ o !! "flags_status" = Some (PDict flags_status)
    /\ o !! "flags_tracking" = Some (PDict flags_tracking)
    /\ (forall k : string,
          flags_status !! k
          = if Str.startswith "firefox" k
            then bug_data !! ("cf_status_" +:+ k) else None)
    /\ (forall k : string,
          flags_tracking !! k
          = if Str.startswith "firefox" k
            then bug_data !! ("cf_tracking_" +:+ k) else None).
Proof.
  intros H.
  apply serialize_bug_Ok in H
    as (p & bug_data & analysis & o' & uplift & fs & ft & summary & keywords
        & versions & Hp & Hb & _ & _ & _ & Hfs & Hft & _ & _ & [= <-]
        & _ & _ & _ & _ & Hofs & Hoft & _).
  destruct (filter_flags_lookup status_base_flag ltac:(done) bug_data)
    as (fs' & Hfs' & Hs).
  destruct (filter_flags_lookup tracking_base_flag ltac:(done) bug_data)
    as (ft' & Hft' & Ht).
  rewrite Hfs in Hfs'. injection Hfs' as ->.
  rewrite Hft in Hft'. injection Hft' as ->.
  by exists p, bug_data, fs', ft'.
Qed.

Lemma flags_by_prefix_witness :
  exists o flags_status flags_tracking : gmap string pyval,
    serialize_bug example_bug = Ok (PDict o)
    /\ o !! "flags_status" = Some (PDict flags_status)
    /\ o !! "flags_tracking" = Some (PDict flags_tracking)
    /\ flags_status !! "firefox47" = Some (PStr "affected")
    /\ flags_status !! "thunderbird_esr" = None
    /\ flags_tracking !! "firefox47" = Some (PStr "+")
    /\ flags_tracking !! "firefox48" = None.
Proof.
  assert (exists o : gmap string pyval, serialize_bug example_bug = Ok (PDict o))
    as (o & Ho) by (eexists; reflexivity).
  destruct (flags_by_prefix example_bug o Ho)
    as (p & bug_data & fs & ft & Hp & Hb & Hfs & Hft & Hs & Ht).
  injection Hp as <-.
  assert (Some (PDict bug_data) = Some (PDict example_bug_data)) as [= ->]
    by (rewrite <- Hb; reflexivity).
  exists o, fs, ft. repeat split; first [done | apply Hs | apply Ht].
Defined.

(** ** Bug data without attachments *)

Lemma build_versions_no_attachments (d : gmap string pyval) :
  d !! "attachments" = None -> build_versions (PDict d) = Ok ∅.
Proof. intros H. unfold build_versions. simpl. by rewrite H. Qed.

Lemma build_versions_empty_attachments (d : gmap string pyval) :
  d !! "attachments" = Some (PList []) -> build_versions (PDict d) = Ok ∅.
Proof. intros H. unfold build_versions. simpl. by rewrite H. Qed.

(** [serialize_bug] reads the bug data through its truth value, the two
    loops over attachments, [summary], [keywords] and the two flag
    filters, and nothing else. *)
Lemma serialize_bug_ext (b b' : Bug.t) (p p' d d' : gmap string pyval) :
  Bug.id b = Bug.id b' ->
  Bug.bugzilla_id b = Bug.bugzilla_id b' ->
  Bug.payload_data b = PDict p ->
  Bug.payload_data b' = PDict p' ->
  p !! "bug" = Some (PDict d) ->
  p' !! "bug" = Some (PDict d') ->
  p !! "analysis" = p' !! "analysis" ->
  p !! "url" = p' !! "url" ->
  Py.truthy (PDict d) = Py.truthy (PDict d') ->
  build_versions (PDict d) = build_versions (PDict d') ->
  d !! "summary" = d' !! "summary" ->
  d !! "keywords" = d' !! "keywords" ->
  (forall base, base = status_base_flag \/ base = tracking_base_flag ->
     _filter_flags (PDict d) base = _filter_flags (PDict d') base) ->
  serialize_bug b = serialize_bug b'.
Proof.
  intros Hid Hbz Hp Hp' Hb Hb' Han Hurl Ht Hv Hs Hk Hf.
  unfold serialize_bug. rewrite Hp, Hp', <- Hid, <- Hbz.
  rewrite (truthy_dict p _ _ Hb), (truthy_dict p' _ _ Hb').
  cbn [negb Py.get]. rewrite Hb, Hb', <- Han, <- Hurl.
  cbn [mbind result_bind]. rewrite <- Ht, <- Hv.
  cbn [Py.getitem]. rewrite <- Hs, <- Hk.
  by rewrite <- !Hf by auto.
Qed.

Lemma filter_flags_with_attachments (d : gmap string pyval) (x : pyval)
    (base : string) :
  base = status_base_flag \/ base = tracking_base_flag ->
  _filter_flags (PDict (<["attachments" := x]> d)) base
  = _filter_flags (PDict d) base.
Proof.
  intros Hbase.
  assert (base <> EmptyString) as Hne by (by destruct Hbase as [-> | ->]).
  destruct (filter_flags_lookup base Hne d) as (fs & -> & Hfs).
  destruct (filter_flags_lookup base Hne (<["attachments" := x]> d))
    as (fs' & -> & Hfs').
  do 2 f_equal. apply map_eq. intros k. rewrite Hfs, Hfs'.
  destruct (Str.startswith "firefox" k); [|done].
  apply lookup_insert_ne. by destruct Hbase as [-> | ->].
Qed.

(** C10. Bug data without an [attachments] key: the loop over the
    attachments has nothing to go through and raises nothing, [versions]
    is the empty dictionary in whatever is returned, and the call ends as
    it does with an empty [attachments] list. Not so for [summary] and
    [keywords]: without one of them nothing is returned. *)
Theorem versions_without_attachments (b : Bug.t) (p d : gmap string pyval) :
  Bug.payload_data b = PDict p ->
  p !! "bug" = Some (PDict d) ->
  d !! "attachments" = None ->
  build_versions (PDict d) = Ok ∅
  /\ (forall o : gmap string pyval,
        serialize_bug b = Ok (PDict o) -> o !! "versions" = Some (PDict ∅))
  /\ (Py.truthy (PDict d) = true ->
      serialize_bug b = serialize_bug (with_attachments b p d (PList [])))
  /\ (d !! "summary" = None \/ d !! "keywords" = None ->
      forall out : pyval, serialize_bug b <> Ok out).
Proof.
  intros Hp Hb Hd. split; [by apply build_versions_no_attachments|].
  split; [|split].
  - intros o H.
    apply serialize_bug_Ok in H
      as (p' & d' & ? & ? & ? & ? & ? & ? & ? & versions & Hp' & Hb' & _ & _
          & Hv & _ & _ & _ & _ & [= <-] & _ & _ & _ & _ & _ & _ & _ & ->).
    rewrite Hp in Hp'. injection Hp' as <-.
    rewrite Hb in Hb'. injection Hb' as <-.
    rewrite build_versions_no_attachments in Hv by done. by injection Hv as <-.
  - intros Ht.
    apply (serialize_bug_ext _ _ p (<["bug" := PDict (<["attachments" := PList []]> d)]> p)
             d (<["attachments" := PList []]> d)); try done.
    + by rewrite lookup_insert_eq.
    + by rewrite lookup_insert_ne.
    + by rewrite lookup_insert_ne.
    + rewrite Ht. symmetry. apply (truthy_dict _ "attachments" (PList [])).
      by rewrite lookup_insert_eq.
    + rewrite build_versions_no_attachments by done.
      symmetry. apply build_versions_empty_attachments.
      by rewrite lookup_insert_eq.
    + by rewrite lookup_insert_ne.
    + by rewrite lookup_insert_ne.
    + intros base Hbase. symmetry. by apply filter_flags_with_attachments.
  - intros Hm out H.
    apply serialize_bug_Ok in H
      as (p' & d' & ? & ? & ? & ? & ? & ? & ? & ? & Hp' & Hb' & _ & _ & _ & _
          & _ & Hs & Hk & _).
    rewrite Hp in Hp'. injection Hp' as <-.
    rewrite Hb in Hb'. injection Hb' as <-.
    destruct Hm; congruence.
Qed.

Lemma versions_without_attachments_witness :
  exists o : gmap string pyval,
    serialize_bug example_bug_no_attachments = Ok (PDict o)
    /\ o !! "versions" = Some (PDict ∅).
Proof.
  assert (exists o : gmap string pyval,
            serialize_bug example_bug_no_attachments = Ok (PDict o))
    as (o & Ho) by (eexists; reflexivity).
  exists o. split; [exact Ho|].
  refine (proj1 (proj2 (versions_without_attachments
            example_bug_no_attachments _ (delete "attachments" example_bug_data)
            eq_refl _ _)) o Ho); reflexivity.
Defined.

(** ** Grouping approval flags *)

Section versions.

Lemma version_entry_append (name status x : pyval) (l : list pyval) :
  <["attachments" := PList (l ++ [x])]>
    ({[ "name" := name; "attachments" := PList l; "status" := status ]}
       : gmap string pyval)
  = {[ "name" := name; "attachments" := PList (l ++ [x]); "status" := status ]}.
Proof.
  rewrite (insert_insert_ne _ "attachments" "name") by done.
  by rewrite insert_insert_eq.
Qed.

Lemma getitem_attachments (name status : pyval) (l : list pyval) :
  Py.getitem (version_entry name status l) "attachments" = Ok (PList l).
Proof. reflexivity. Qed.

(** One approval flag [f], named [n], on the attachment [a]. *)
Variables (a f : gmap string pyval) (a_id status : pyval) (n : string).
Hypothesis a_has_id : a !! "id" = Some a_id.
Hypothesis f_name : f !! "name" = Some (PStr n).
Hypothesis f_status : f !! "status" = Some status.
Hypothesis f_approval : Str.startswith approval_base_flag n = true.

(** The first flag under a name opens the entry. *)
Lemma add_flag_new (versions : gmap string pyval) :
  versions !! version_name n status = None ->
  add_flag (PDict a) versions (PDict f)
  = Ok (<[version_name n status :=
            version_entry (PStr n) status [PStr (Py.str a_id)]]> versions).
Proof.
  intros Hv. unfold add_flag. cbn [Py.getitem]. rewrite f_name, f_status.
  cbn [mbind result_bind Py.startswith]. rewrite f_approval, Hv.
  rewrite lookup_insert_eq. cbn [mbind result_bind].
  rewrite getitem_attachments. cbn [mbind result_bind Py.append].
  rewrite a_has_id. unfold version_entry. cbn [mbind result_bind].
  rewrite insert_insert_eq. by rewrite (version_entry_append _ _ _ []).
Qed.

(** A later flag under the same name adds its attachment to the entry
    and leaves the entry's name and status as they are. *)
Lemma add_flag_seen (versions : gmap string pyval) (name0 status0 : pyval)
    (l : list pyval) :
  versions !! version_name n status = Some (version_entry name0 status0 l) ->
  add_flag (PDict a) versions (PDict f)
  = Ok (<[version_name n status :=
            version_entry name0 status0 (l ++ [PStr (Py.str a_id)])]> versions).
Proof.
  intros Hv. unfold add_flag. cbn [Py.getitem]. rewrite f_name, f_status.
  cbn [mbind result_bind Py.startswith]. rewrite f_approval, Hv.
  rewrite Hv. cbn [mbind result_bind].
  rewrite getitem_attachments. cbn [mbind result_bind Py.append].
  rewrite a_has_id. unfold version_entry. cbn [mbind result_bind].
  by rewrite version_entry_append.
Qed.

End versions.

(** A flag of another kind leaves [versions] alone. *)
Lemma add_flag_other (a : pyval) (f versions : gmap string pyval) (n : string) :
  f !! "name" = Some (PStr n) ->
  Str.startswith approval_base_flag n = false ->
  add_flag a versions (PDict f) = Ok versions.
Proof.
  intros Hn Hp. unfold add_flag. cbn [Py.getitem]. rewrite Hn.
  cbn [mbind result_bind Py.startswith]. by rewrite Hp.
Qed.

Lemma add_attachment_flags (versions a : gmap string pyval) (fl : list pyval) :
  a !! "flags" = Some (PList fl) ->
  add_attachment versions (PDict a) = foldM (add_flag (PDict a)) versions fl.
Proof. intros H. unfold add_attachment. cbn [Py.getitem]. by rewrite H. Qed.

Lemma add_attachment_one_flag (versions a : gmap string pyval) (flag : pyval) :
  a !! "flags" = Some (PList [flag]) ->
  add_attachment versions (PDict a) = add_flag (PDict a) versions flag.
Proof.
  intros H. rewrite (add_attachment_flags _ _ _ H).
  cbn [foldM]. by destruct (add_flag _ _ _).
Qed.

(** C2. Two attachments, each with one approval flag, the two flags
    falling under the same name (same channel, same status): [versions]
    has one entry, under that name, with the name and status of the first
    flag and the ids of both attachments, as strings, in the order of the
    attachments; and that is the [versions] of what [serialize_bug]
    returns. *)
Theorem versions_merge_attachments
    (b : Bug.t) (p d a1 a2 f1 f2 : gmap string pyval)
    (i1 i2 s1 s2 : pyval) (n1 n2 : string) :
  Bug.payload_data b = PDict p ->
  p !! "bug" = Some (PDict d) ->
  d !! "attachments" = Some (PList [PDict a1; PDict a2]) ->
  a1 !! "id" = Some i1 -> a1 !! "flags" = Some (PList [PDict f1]) ->
  a2 !! "id" = Some i2 -> a2 !! "flags" = Some (PList [PDict f2]) ->
  f1 !! "name" = Some (PStr n1) -> f1 !! "status" = Some s1 ->
  f2 !! "name" = Some (PStr n2) -> f2 !! "status" = Some s2 ->
  Str.startswith approval_base_flag n1 = true ->
  Str.startswith approval_base_flag n2 = true ->
  version_name n1 s1 = version_name n2 s2 ->
  let versions : gmap string pyval :=
    {[ version_name n1 s1 :=
         PDict {[ "name" := PStr n1;
                  "status" := s1;
                  "attachments" := PList [PStr (Py.str i1); PStr (Py.str i2)] ]} ]} in
  build_versions (PDict d) = Ok versions
  /\ forall o : gmap string pyval,
       serialize_bug b = Ok (PDict o) -> o !! "versions" = Some (PDict versions).
Proof.
  intros Hp Hb Hd Hi1 Hfl1 Hi2 Hfl2 Hn1 Hs1 Hn2 Hs2 Hp1 Hp2 Hkey versions.
  assert (build_versions (PDict d) = Ok versions) as Hv.
  { unfold build_versions. cbn [Py.get]. rewrite Hd.
    cbn [mbind result_bind Py.iter foldM].
    rewrite (add_attachment_one_flag _ _ _ Hfl1).
    rewrite (add_flag_new a1 f1 i1 s1 n1 Hi1 Hn1 Hs1 Hp1) by apply lookup_empty.
    cbn [mbind result_bind].
    rewrite (add_attachment_one_flag _ _ _ Hfl2).
    rewrite (add_flag_seen a2 f2 i2 s2 n2 Hi2 Hn2 Hs2 Hp2 _ (PStr n1) s1 [PStr (Py.str i1)])
      by (rewrite <- Hkey; apply lookup_insert_eq).
    cbn [mbind result_bind]. rewrite <- Hkey, insert_insert_eq, insert_empty.
    unfold versions, version_entry. reflexivity. }
  split; [exact Hv|]. intros o H.
  apply serialize_bug_Ok in H
    as (p' & d' & ? & ? & ? & ? & ? & ? & ? & versions' & Hp' & Hb' & _ & _
        & Hv' & _ & _ & _ & _ & [= <-] & _ & _ & _ & _ & _ & _ & _ & ->).
  rewrite Hp in Hp'. injection Hp' as <-.
  rewrite Hb in Hb'. injection Hb' as <-.
  rewrite Hv in Hv'. by injection Hv' as <-.
Qed.

Lemma versions_merge_attachments_witness :
  exists o : gmap string pyval,
    serialize_bug example_bug = Ok (PDict o)
    /\ o !! "versions"
       = Some (PDict {[ "beta +" :=
                          PDict {[ "name" := PStr "approval-mozilla-beta";
                                   "status" := PStr "+";
                                   "attachments" := PList [PStr "42"; PStr "43"] ]} ]}).
Proof.
  assert (exists o : gmap string pyval, serialize_bug example_bug = Ok (PDict o))
    as (o & Ho) by (eexists; reflexivity).
  exists o. split; [exact Ho|].
  refine (proj2 (versions_merge_attachments example_bug _ example_bug_data
            {[ "id" := PInt 42; "flags" := PList [beta_approval] ]}
            {[ "id" := PInt 43; "flags" := PList [beta_approval] ]}
            {[ "name" := PStr "approval-mozilla-beta"; "status" := PStr "+" ]}
            {[ "name" := PStr "approval-mozilla-beta"; "status" := PStr "+" ]}
            (PInt 42) (PInt 43) (PStr "+") (PStr "+")
            "approval-mozilla-beta" "approval-mozilla-beta"
            eq_refl _ _ _ _ _ _ _ _ _ _ _ _ _) o Ho); reflexivity.
Defined.

(** *** Any number of attachments and flags *)

Section grouping.

(** The entries of [versions] while the loops run: name, status and
    ids. *)
Let entry (e : pyval * pyval * list pyval) : pyval :=
  version_entry e.1.1 e.1.2 e.2.

Let group_step (vs : gmap string (pyval * pyval * list pyval)) (a : approval)
  : gmap string (pyval * pyval * list pyval) :=
  match vs !! ap_key a with
  | None =>
      <[ap_key a := (PStr (ap_name a), ap_status a, [PStr (Py.str (ap_id a))])]> vs
  | Some e => <[ap_key a := (e.1, e.2 ++ [PStr (Py.str (ap_id a))])]> vs
  end.

Lemma add_flag_step (ad : gmap string pyval) (i : pyval) (f : pyval)
    (ns : string * pyval) (vs : gmap string (pyval * pyval * list pyval)) :
  ad !! "id" = Some i -> is_flag f ns ->
  add_flag (PDict ad) (entry <$> vs) f
  = Ok (entry <$> foldl group_step vs (approvals_of i [ns])).
Proof.
  intros Hi (fd & -> & Hn & Hs). unfold approvals_of. cbn [omap list_omap].
  destruct (Str.startswith approval_base_flag ns.1) eqn:Hp; cbn [foldl].
  - unfold group_step, ap_key. cbn [ap_name ap_status ap_id].
    destruct (vs !! version_name ns.1 ns.2) as [[[n0 s0] l]|] eqn:Hv.
    + rewrite (add_flag_seen ad fd i ns.2 ns.1 Hi Hn Hs Hp _ n0 s0 l)
        by (by rewrite lookup_fmap, Hv).
      by rewrite fmap_insert.
    + rewrite (add_flag_new ad fd i ns.2 ns.1 Hi Hn Hs Hp)
        by (by rewrite lookup_fmap, Hv).
      by rewrite fmap_insert.
  - by apply add_flag_other with (n := ns.1).
Qed.

Lemma approvals_of_cons (i : pyval) (ns : string * pyval)
    (flags : list (string * pyval)) :
  approvals_of i (ns :: flags) = approvals_of i [ns] ++ approvals_of i flags.
Proof.
  unfold approvals_of. cbn [omap list_omap].
  by destruct (Str.startswith approval_base_flag ns.1).
Qed.

Lemma add_flags_fold (ad : gmap string pyval) (i : pyval) (fl : list pyval)
    (flags : list (string * pyval)) :
  ad !! "id" = Some i -> Forall2 is_flag fl flags ->
  forall vs : gmap string (pyval * pyval * list pyval),
    foldM (add_flag (PDict ad)) (entry <$> vs) fl
    = Ok (entry <$> foldl group_step vs (approvals_of i flags)).
Proof.
  intros Hi. induction 1 as [|f ns fl flags Hf _ IH]; intros vs; [done|].
  cbn [foldM]. rewrite (add_flag_step ad i f ns vs Hi Hf).
  cbn [mbind result_bind]. rewrite IH.
  by rewrite (approvals_of_cons i ns flags), foldl_app.
Qed.

Lemma add_attachments_fold (al : list pyval)
    (atts : list (pyval * list (string * pyval))) :
  Forall2 is_attachment al atts ->
  forall vs : gmap string (pyval * pyval * list pyval),
    foldM add_attachment (entry <$> vs) al
    = Ok (entry <$> foldl group_step vs (approvals atts)).
Proof.
  induction 1 as [|a x al atts (ad & fl & -> & Hi & Hfl & Hflags) _ IH];
    intros vs; [done|].
  cbn [foldM]. rewrite (add_attachment_flags _ _ _ Hfl).
  rewrite (add_flags_fold ad x.1 fl x.2 Hi Hflags).
  cbn [mbind result_bind]. rewrite IH.
  unfold approvals. cbn [map concat]. by rewrite foldl_app.
Qed.

(** What the fold leaves under a name: the approvals under that name
    added, in their order, to what was there. *)
Lemma group_step_lookup (l : list approval) (key : string) :
  forall vs : gmap string (pyval * pyval * list pyval),
    foldl group_step vs l !! key
    = match vs !! key, filter (fun a => ap_key a = key) l with
      | Some e, m => Some (e.1, e.2 ++ ap_ids m)
      | None, [] => None
      | None, a :: m => Some (PStr (ap_name a), ap_status a, ap_ids (a :: m))
      end.
Proof.
  induction l as [|a l IH]; intros vs.
  - cbn [foldl filter list_filter ap_ids map].
    destruct (vs !! key) as [[e ids]|]; [|done]. by rewrite app_nil_r.
  - cbn [foldl]. rewrite IH. unfold group_step.
    destruct (decide (ap_key a = key)) as [<-|Hne].
    + rewrite filter_cons_True by done.
      destruct (vs !! ap_key a) as [[e ids]|] eqn:Hv; rewrite lookup_insert_eq;
        cbn [fst snd ap_ids map]; by rewrite <- ?app_assoc.
    + rewrite filter_cons_False by done.
      destruct (vs !! ap_key a) as [e|]; by rewrite lookup_insert_ne.
Qed.

(** The two loops, on attachments that are well formed: every name has
    the entry the description gives it. *)
Lemma build_versions_grouped (d : gmap string pyval) (al : list pyval)
    (atts : list (pyval * list (string * pyval))) :
  d !! "attachments" = Some (PList al) ->
  Forall2 is_attachment al atts ->
  exists versions : gmap string pyval,
    build_versions (PDict d) = Ok versions
    /\ forall key : string, versions !! key = grouped (approvals atts) key.
Proof.
  intros Hd Hal. unfold build_versions. cbn [Py.get]. rewrite Hd.
  cbn [mbind result_bind Py.iter].
  pose proof (add_attachments_fold al atts Hal ∅) as H.
  rewrite fmap_empty in H. rewrite H. eexists. split; [done|].
  intros key. rewrite lookup_fmap, group_step_lookup, lookup_empty.
  unfold grouped. by destruct (filter _ _).
Qed.

End grouping.

(** ** The name a flag is grouped under *)

(** The scan of [replace] goes on after the leading prefix. *)
Lemma base_name_prefix (r : string) :
  base_name (approval_base_flag +:+ r) = base_name r.
Proof. unfold base_name. by apply replace_all_prefix. Qed.

(** When the prefix does not come back in the rest of the name, the
    base name is that rest. *)
Lemma base_name_suffix (r : string) :
  Str.contains approval_base_flag r = false ->
  base_name (approval_base_flag +:+ r) = r.
Proof.
  intros H. rewrite base_name_prefix. unfold base_name, Str.replace.
  cbn [approval_base_flag]. by apply replace_scan_absent.
Qed.

(** C5. A flag name in which the prefix comes twice: the base name is
    not what follows the prefix ([approval-mozilla-beta]) but what is
    left once every occurrence is taken out ([beta]), and the flag is
    grouped under [beta +]. *)
Theorem base_name_drops_every_prefix :
  let name := approval_base_flag +:+ "approval-mozilla-beta" in
  let flag : pyval := PDict {[ "name" := PStr name; "status" := PStr "+" ]} in
  let bug_data : pyval :=
    PDict {[ "attachments" :=
               PList [PDict {[ "id" := PInt 42; "flags" := PList [flag] ]}] ]} in
  Str.startswith approval_base_flag name = true
  /\ base_name name = "beta"
  /\ base_name name <> "approval-mozilla-beta"
  /\ build_versions bug_data
     = Ok {[ "beta +" := version_entry (PStr name) (PStr "+") [PStr "42"] ]}
  /\ Str.replace approval_base_flag EmptyString (Some 1%nat) name = "approval-mozilla-beta".
Proof.
  intros name flag bug_data.
  split; [vm_compute; reflexivity|]. split; [vm_compute; reflexivity|].
  split; [vm_compute; discriminate|]. split; vm_compute; reflexivity.
Qed.

(** ** The uplift request *)

Lemma build_uplift_none (analysis : gmap string pyval) :
  uplift_requested analysis = false ->
  build_uplift (PDict analysis) = Ok PNone.
Proof.
  unfold uplift_requested, get_or_none, build_uplift. cbn [Py.get].
  destruct (analysis !! "uplift_comment") as [c|]; cbn [mbind result_bind];
    [|done].
  destruct (Py.truthy c); cbn [mbind result_bind andb]; [|done].
  destruct (analysis !! "uplift_author") as [a|]; cbn [mbind result_bind];
    [|done].
  by intros ->.
Qed.

Lemma build_uplift_requested (analysis : gmap string pyval) (uplift : pyval) :
  uplift_requested analysis = true ->
  build_uplift (PDict analysis) = Ok uplift ->
  exists (comment : gmap string pyval) (author comment_id user : pyval),
    analysis !! "uplift_comment" = Some (PDict comment)
    /\ analysis !! "uplift_author" = Some author
    /\ comment !! "id" = Some comment_id
    /\ serialize_user author = Ok user
    /\ uplift = uplift_block comment_id user (comment_text comment).
Proof.
  unfold uplift_requested, get_or_none, build_uplift. cbn [Py.get Py.getitem].
  destruct (analysis !! "uplift_comment") as [c|]; [|done].
  destruct (analysis !! "uplift_author") as [a|];
    [|by rewrite andb_false_r].
  intros [Hc Ha]%andb_prop. cbn [mbind result_bind]. rewrite Hc.
  cbn [mbind result_bind]. rewrite Ha. intros H.
  bind_inv H. bind_inv H. rename a1 into text, Ha1 into Htext.
  bind_inv H. rename a1 into comment_id, Ha1 into Hid.
  bind_inv H. rename a1 into user, Ha1 into Huser.
  injection H as <-.
  apply getitem_Ok in Hid as (comment & -> & Hid).
  exists comment, a, comment_id, user. repeat split; try done.
  unfold uplift_block, comment_text. injection Ha0 as <-.
  destruct (comment !! "html") as [html|] eqn:Hh.
  - rewrite bool_decide_true in Htext by done. cbn [Py.getitem] in Htext.
    rewrite Hh in Htext. injection Htext as <-. reflexivity.
  - rewrite bool_decide_false in Htext by (by intros [? ?]).
    cbn [Py.get] in Htext.
    destruct (comment !! "text"); injection Htext as <-; reflexivity.
Qed.

(** When the request is there and well formed, the block is built. *)
Lemma build_uplift_block (analysis comment : gmap string pyval)
    (author comment_id user : pyval) :
  analysis !! "uplift_comment" = Some (PDict comment) ->
  analysis !! "uplift_author" = Some author ->
  Py.truthy author = true ->
  comment !! "id" = Some comment_id ->
  serialize_user author = Ok user ->
  build_uplift (PDict analysis)
  = Ok (uplift_block comment_id user (comment_text comment)).
Proof.
  intros Hc Ha Hta Hid Hu. unfold build_uplift. cbn [Py.get Py.getitem].
  rewrite Hc, Ha. cbn [mbind result_bind].
  rewrite (truthy_dict _ _ _ Hid). cbn [mbind result_bind]. rewrite Hta.
  cbn [mbind result_bind Py.contains].
  unfold comment_text, uplift_block.
  destruct (comment !! "html") as [html|] eqn:Hh.
  - rewrite bool_decide_true by done. cbn [mbind result_bind Py.getitem].
    rewrite Hh. cbn [mbind result_bind]. rewrite Hid.
    cbn [mbind result_bind]. rewrite Hu. reflexivity.
  - rewrite bool_decide_false by (by intros [? ?]).
    cbn [mbind result_bind Py.get Py.getitem].
    destruct (comment !! "text"); cbn [mbind result_bind]; rewrite Hid;
      cbn [mbind result_bind]; rewrite Hu; reflexivity.
Qed.

(** C3, as stated, fails: with both keys in the analysis but an empty
    string for the author, [serialize_bug] returns and [uplift] is
    [None]. *)
Lemma uplift_none_with_both_keys :
  let analysis : gmap string pyval :=
    <["uplift_author" := PStr EmptyString]> example_analysis in
  Bug.payload_data example_bug_empty_author
  = PDict {[ "bug" := PDict example_bug_data; "analysis" := PDict analysis ]}
  /\ analysis !! "uplift_comment"
     = Some (PDict {[ "id" := PInt 9; "text" := PStr "Please uplift." ]})
  /\ analysis !! "uplift_author" = Some (PStr EmptyString)
  /\ exists o : gmap string pyval,
       serialize_bug example_bug_empty_author = Ok (PDict o)
       /\ o !! "uplift" = Some PNone.
Proof.
  intros analysis. split; [reflexivity|].
  split; [vm_compute; reflexivity|]. split; [vm_compute; reflexivity|].
  eexists. split; [reflexivity|]. vm_compute; reflexivity.
Qed.

(** C3, amended. [uplift] is [None] unless the analysis has a true value
    (not [None], not empty) for both [uplift_comment] and
    [uplift_author]; when it has, [uplift] is the block made of the
    comment's [id], the serialized author, and the comment's [html] if it
    has one, else its [text], else ["No comment."]. *)
Theorem uplift_block_when_requested (b : Bug.t) (o : gmap string pyval) :
  serialize_bug b = Ok (PDict o) ->
  exists p analysis : gmap string pyval,
    Bug.payload_data b = PDict p
    /\ p !! "analysis" = Some (PDict analysis)
    /\ if uplift_requested analysis
       then exists (comment : gmap string pyval) (author comment_id user : pyval),
              analysis !! "uplift_comment" = Some (PDict comment)
              /\ analysis !! "uplift_author" = Some author
              /\ comment !! "id" = Some comment_id
              /\ serialize_user author = Ok user
              /\ o !! "uplift"
                 = Some (uplift_block comment_id user (comment_text comment))
       else o !! "uplift" = Some PNone.
Proof.
  intros H.
  apply serialize_bug_Ok in H
    as (p & d & analysis & o' & uplift & ? & ? & ? & ? & ? & Hp & _ & Ha & Hu
        & _ & _ & _ & _ & _ & [= <-] & _ & _ & _ & _ & _ & _ & Ho & _).
  exists p, analysis. split; [done|]. split; [done|].
  destruct (uplift_requested analysis) eqn:Hr.
  - apply (build_uplift_requested _ _ Hr) in Hu
      as (comment & author & comment_id & user & Hc & Hau & Hid & Hs & ->).
    by exists comment, author, comment_id, user.
  - rewrite (build_uplift_none _ Hr) in Hu. by injection Hu as <-.
Qed.

Lemma uplift_block_when_requested_witness :
  exists (o : gmap string pyval) (user : pyval),
    serialize_bug example_bug = Ok (PDict o)
    /\ serialize_user (PDict {[ "name" := PStr "bob@example.org" ]}) = Ok user
    /\ o !! "uplift"
       = Some (uplift_block (PInt 9) user (PStr "Please uplift.")).
Proof.
  assert (exists o : gmap string pyval, serialize_bug example_bug = Ok (PDict o))
    as (o & Ho) by (eexists; reflexivity).
  destruct (uplift_block_when_requested example_bug o Ho)
    as (p & analysis & Hp & Ha & H).
  injection Hp as <-.
  assert (Some (PDict analysis) = Some (PDict example_analysis)) as [= ->]
    by (rewrite <- Ha; reflexivity).
  change (uplift_requested example_analysis) with true in H.
  destruct H as (comment & author & comment_id & user & Hc & Hau & Hid & Hs & Hu).
  assert (Some (PDict comment)
          = Some (PDict {[ "id" := PInt 9; "text" := PStr "Please uplift." ]}))
    as [= ->] by (rewrite <- Hc; reflexivity).
  assert (Some author = Some (PDict {[ "name" := PStr "bob@example.org" ]}))
    as [= ->] by (rewrite <- Hau; reflexivity).
  assert (Some comment_id = Some (PInt 9)) as [= ->]
    by (rewrite <- Hid; reflexivity).
  exists o, user. split; [exact Ho|]. split; [exact Hs|]. exact Hu.
Defined.

(** ** serialize_analysis *)

(** C4. Without [full] the result has an empty [bugs] list and [count]
    is still the number of bugs of the analysis; with or without it,
    [id], [name] and [parameters] are those of the analysis. *)
Theorem serialize_analysis_summary (a : Analysis.t) :
  serialize_analysis a false
  = Ok (PDict {[ "id" := Analysis.id a;
                 "name" := Analysis.name a;
                 "count" := PInt (Z.of_nat (length (Analysis.bugs a)));
                 "parameters" := Analysis.parameters a;
                 "bugs" := PList [] ]})
  /\ forall (full : bool) (o : gmap string pyval),
       serialize_analysis a full = Ok (PDict o) ->
       o !! "id" = Some (Analysis.id a)
       /\ o !! "name" = Some (Analysis.name a)
       /\ o !! "parameters" = Some (Analysis.parameters a)
       /\ o !! "count" = Some (PInt (Z.of_nat (length (Analysis.bugs a)))).
Proof.
  split; [reflexivity|]. intros full o. unfold serialize_analysis.
  destruct full.
  - intros H. bind_inv H. injection H as <-. repeat split; reflexivity.
  - intros [= <-]. repeat split; reflexivity.
Qed.

Lemma serialize_analysis_summary_witness :
  exists (o : gmap string pyval) (bug : pyval),
    serialize_analysis example_entity true = Ok (PDict o)
    /\ o !! "bugs" = Some (PList [bug])
    /\ o !! "count" = Some (PInt 2)
    /\ o !! "id" = Some (PInt 3)
    /\ o !! "name" = Some (PStr "Beta uplifts")
    /\ o !! "parameters" = Some (PDict {[ "channel" := PStr "beta" ]}).
Proof.
  assert (exists (o : gmap string pyval) (bug : pyval),
            serialize_analysis example_entity true = Ok (PDict o)
            /\ o !! "bugs" = Some (PList [bug]))
    as (o & bug & Ho & Hb) by (do 2 eexists; split; reflexivity).
  destruct (proj2 (serialize_analysis_summary example_entity) true o Ho)
    as (Hi & Hn & Hp & Hc).
  exists o, bug. split; [exact Ho|]. split; [exact Hb|].
  split; [exact Hc|]. split; [exact Hi|]. split; [exact Hn | exact Hp].
Defined.

(** * Further properties *)

(** ** Lists under the error monad *)

Lemma mapM_Ok {A B : Type} (f : A -> result B) (l : list A) (k : list B) :
  mapM f l = Ok k <-> Forall2 (fun x y => f x = Ok y) l k.
Proof.
  revert k. induction l as [|x l IH]; intros k.
  - split; [intros [= <-]; constructor | by inversion 1].
  - cbn [mapM]. split.
    + intros H. bind_inv H. bind_inv H. injection H as <-.
      constructor; [done | by apply IH].
    + inversion 1 as [|? y ? k' Hx Hl]; subst. rewrite Hx.
      cbn [mbind result_bind]. apply IH in Hl. by rewrite Hl.
Qed.

(** The first element that raises ends the traversal with its exception. *)
Lemma mapM_Raise {A B : Type} (f : A -> result B) (l : list A) (e : exn) :
  mapM f l = Raise e
  <-> exists (l1 : list A) (x : A) (l2 : list A),
        l = l1 ++ x :: l2
        /\ Forall (fun y => exists z, f y = Ok z) l1
        /\ f x = Raise e.
Proof.
  induction l as [|x l IH].
  - split; [done|]. intros (l1 & y & l2 & H & _). by destruct l1.
  - cbn [mapM]. split.
    + destruct (f x) as [y|e'] eqn:Hx; cbn [mbind result_bind].
      * destruct (mapM f l) as [k|e'] eqn:Hl; cbn [mbind result_bind]; [done|].
        intros [= ->]. destruct (proj1 IH eq_refl) as (l1 & z & l2 & -> & Hl1 & Hz).
        exists (x :: l1), z, l2. split; [done|]. split; [|done].
        constructor; [by exists y | done].
      * intros [= ->]. exists [], x, l. by repeat split.
    + intros (l1 & z & l2 & Heq & Hl1 & Hz). destruct l1 as [|x' l1].
      * injection Heq as -> ->. by rewrite Hz.
      * injection Heq as -> ->. inversion Hl1 as [|? ? [y Hy] Hl1']; subst.
        rewrite Hy. cbn [mbind result_bind].
        rewrite (proj2 IH) by (by exists l1, z, l2). done.
Qed.

Lemma foldM_app {A S : Type} (f : S -> A -> result S) (s : S) (l1 l2 : list A) :
  foldM f s (l1 ++ l2) = foldM f s l1 ≫= fun s' => foldM f s' l2.
Proof.
  revert s. induction l1 as [|x l1 IH]; intros s; [done|].
  cbn [app foldM]. destruct (f s x); cbn [mbind result_bind]; [apply IH | done].
Qed.

(** ** serialize_user, further *)

(** X1. Serializing what [serialize_user] returned gives it back
    unchanged: a user that went through once (the dictionary of the
    payload, updated in place) can go through again. *)
Theorem serialize_user_idempotent (u o : pyval) :
  serialize_user u = Ok o -> serialize_user o = Ok o.
Proof.
  intros H. apply serialize_user_Ok in H as (out & e & _ & He & ->).
  unfold serialize_user. cbn [user_record].
  rewrite lookup_insert_ne, He by done. cbn [mbind result_bind].
  rewrite (add_gravatar_email _ e) by (by rewrite lookup_insert_ne).
  by rewrite insert_insert_eq.
Qed.

Lemma serialize_user_idempotent_witness :
  exists o : pyval,
    serialize_user (PDict {[ "name" := PStr "Sylvestre" ]}) = Ok o
    /\ serialize_user o = Ok o.
Proof.
  assert (exists o : pyval,
            serialize_user (PDict {[ "name" := PStr "Sylvestre" ]}) = Ok o)
    as (o & Ho) by (eexists; reflexivity).
  exists o. split; [exact Ho|].
  exact (serialize_user_idempotent _ o Ho).
Defined.

(** X2. A dictionary keeps all its fields: only [avatar] is written, and
    [email] when it was missing; in particular an [email] that is there
    is returned as it was given, not in its stripped and lower-cased
    form, and no [real_name] is added. *)
Theorem serialize_user_keeps_fields (d out : gmap string pyval) :
  serialize_user (PDict d) = Ok (PDict out) ->
  (forall k : string, k <> "email" -> k <> "avatar" -> out !! k = d !! k)
  /\ (forall e : pyval, d !! "email" = Some e -> out !! "email" = Some e).
Proof.
  intros H. apply serialize_user_Ok in H as (o & e & Hu & He & [= ->]).
  cbn [user_record] in Hu. split.
  - intros k Hk1 Hk2. rewrite lookup_insert_ne by done.
    destruct (d !! "email"); [by injection Hu as <-|].
    bind_inv Hu. injection Hu as <-. by rewrite lookup_insert_ne.
  - intros x Hx. rewrite Hx in Hu. injection Hu as <-.
    by rewrite lookup_insert_ne.
Qed.

Lemma serialize_user_keeps_fields_witness :
  exists out : gmap string pyval,
    serialize_user (PDict {[ "email" := PStr " Bob@Example.org";
                             "id" := PInt 5 ]}) = Ok (PDict out)
    /\ out !! "id" = Some (PInt 5)
    /\ out !! "real_name" = None
    /\ out !! "email" = Some (PStr " Bob@Example.org").
Proof.
  assert (exists out : gmap string pyval,
            serialize_user (PDict {[ "email" := PStr " Bob@Example.org";
                                     "id" := PInt 5 ]}) = Ok (PDict out))
    as (out & Ho) by (eexists; reflexivity).
  destruct (serialize_user_keeps_fields _ out Ho) as [Hk He].
  exists out. split; [exact Ho|].
  split; [by rewrite Hk|]. split; [by rewrite Hk|]. by apply He.
Defined.

(** X3. On a user that is not valid [serialize_user] raises, and there
    are two ways only: [KeyError('name')] for a dictionary with neither
    [email] nor [name], [AttributeError] from [.strip()] when what stands
    for the email is not a string. *)
Theorem serialize_user_raises (u : pyval) :
  ~ valid_user u ->
  serialize_user u
  = Raise (if lacks_name u then KeyError "name" else AttributeError "strip").
Proof.
  intros Hv. unfold serialize_user, lacks_name.
  destruct u as [| | |s|l|d]; try reflexivity.
  - destruct Hv. apply valid_bare.
  - cbn [user_record Py.getitem].
    destruct (d !! "email") as [e|] eqn:He.
    + cbn [mbind result_bind]. unfold add_gravatar. cbn [Py.getitem].
      rewrite He. cbn [mbind result_bind].
      destruct e; try reflexivity. destruct Hv. by eapply valid_email.
    + destruct (d !! "name") as [n|] eqn:Hn; [|reflexivity].
      cbn [mbind result_bind]. unfold add_gravatar. cbn [Py.getitem].
      rewrite lookup_insert_eq. cbn [mbind result_bind].
      destruct n; try reflexivity. destruct Hv. by eapply valid_name.
Qed.

Lemma serialize_user_raises_witness :
  serialize_user (PDict {[ "real_name" := PStr "Sylvestre" ]})
  = Raise (KeyError "name")
  /\ serialize_user (PDict {[ "email" := PNone ]})
     = Raise (AttributeError "strip")
  /\ serialize_user (PInt 5) = Raise (AttributeError "strip").
Proof.
  split; [|split].
  - rewrite (serialize_user_raises (PDict {[ "real_name" := PStr "Sylvestre" ]}));
      [reflexivity|].
    inversion 1 as [|d e He|d n He Hn]; subst; vm_compute in *; discriminate.
  - rewrite (serialize_user_raises (PDict {[ "email" := PNone ]}));
      [reflexivity|].
    inversion 1 as [|d e He|d n He Hn]; subst; vm_compute in *; discriminate.
  - rewrite (serialize_user_raises (PInt 5)); [reflexivity|]. inversion 1.
Defined.

(** ** The shape of the avatar *)

Lemma le_bytes_length (n : nat) (x : Z) : length (MD5.le_bytes n x) = n.
Proof. unfold MD5.le_bytes. by rewrite length_map, length_seq. Qed.

Lemma le_bytes_range (n : nat) (x : Z) :
  Forall (fun b => 0 <= b < 256) (MD5.le_bytes n x).
Proof.
  unfold MD5.le_bytes. apply Forall_map, Forall_forall. intros k _.
  apply Z.mod_pos_bound. lia.
Qed.

Lemma digest_length (msg : list Z) : length (MD5.digest msg) = 16%nat.
Proof. unfold MD5.digest. by rewrite !length_app, !le_bytes_length. Qed.

Lemma digest_range (msg : list Z) :
  Forall (fun b => 0 <= b < 256) (MD5.digest msg).
Proof. unfold MD5.digest. repeat apply Forall_app_2; apply le_bytes_range. Qed.

Lemma hex_length (bytes : list Z) :
  String.length (MD5.hex bytes) = (2 * length bytes)%nat.
Proof. induction bytes as [|b l IH]; simpl; [done | rewrite IH; lia]. Qed.

Lemma hex_digit_char (n : Z) : 0 <= n < 16 -> hex_char (MD5.hex_digit n) = true.
Proof.
  intros H. rewrite <- (Z2Nat.id n) by lia.
  assert (Z.to_nat n < 16)%nat as Hk by lia.
  revert Hk. generalize (Z.to_nat n) as k. intros k Hk.
  do 16 (destruct k as [|k]; [reflexivity|]). lia.
Qed.

Lemma hex_all_hex (bytes : list Z) :
  Forall (fun b => 0 <= b < 256) bytes -> all_hex (MD5.hex bytes) = true.
Proof.
  induction 1 as [|b l Hb _ IH]; [done|].
  cbn [MD5.hex all_hex]. rewrite IH, !hex_digit_char; [done | |].
  - apply Z.mod_pos_bound. lia.
  - split; [apply Z.div_pos; lia | apply Z.div_lt_upper_bound; lia].
Qed.

(** X4. Whatever the user, the avatar that comes back is the gravatar
    address followed by 32 lower-case hexadecimal digits. *)
Theorem avatar_shape (u : pyval) (o : gmap string pyval) :
  serialize_user u = Ok (PDict o) ->
  exists h : string,
    o !! "avatar" = Some (PStr ("https://www.gravatar.com/avatar/" +:+ h))
    /\ String.length h = 32%nat
    /\ all_hex h = true.
Proof.
  intros H. apply serialize_user_Ok in H as (out & e & _ & _ & [= ->]).
  eexists. split; [by rewrite lookup_insert_eq|].
  unfold MD5.hexdigest. split.
  - by rewrite hex_length, digest_length.
  - apply hex_all_hex, digest_range.
Qed.

Lemma avatar_shape_witness :
  exists (o : gmap string pyval) (h : string),
    serialize_user (PStr "carol@example.org") = Ok (PDict o)
    /\ o !! "avatar" = Some (PStr ("https://www.gravatar.com/avatar/" +:+ h))
    /\ String.length h = 32%nat
    /\ all_hex h = true.
Proof.
  assert (exists o : gmap string pyval,
            serialize_user (PStr "carol@example.org") = Ok (PDict o))
    as (o & Ho) by (eexists; reflexivity).
  destruct (avatar_shape _ o Ho) as (h & Ha & Hl & Hh).
  by exists o, h.
Defined.

(** ** serialize_bug, further *)

(** Everything a returned value says about the run. *)
Lemma serialize_bug_run (b : Bug.t) (out : pyval) :
  serialize_bug b = Ok out ->
  exists (p d an ud versions : gmap string pyval)
         (uplift fs ft summary keywords c_in a_in rs creator assignee patches
            : pyval)
         (rl reviewers : list pyval),
    Bug.payload_data b = PDict p
    /\ p !! "bug" = Some (PDict d)
    /\ p !! "analysis" = Some (PDict an)
    /\ an !! "users" = Some (PDict ud)
    /\ build_uplift (PDict an) = Ok uplift
    /\ build_versions (PDict d) = Ok versions
    /\ d !! "summary" = Some summary
    /\ d !! "keywords" = Some keywords
    /\ _filter_flags (PDict d) status_base_flag = Ok fs
    /\ _filter_flags (PDict d) tracking_base_flag = Ok ft
    /\ ud !! "creator" = Some c_in /\ serialize_user c_in = Ok creator
    /\ ud !! "assignee" = Some a_in /\ serialize_user a_in = Ok assignee
    /\ ud !! "reviewers" = Some rs /\ Py.iter rs = Ok rl
    /\ mapM serialize_user rl = Ok reviewers
    /\ an !! "patches" = Some patches
    /\ out = PDict (list_to_map
         [ ("id", Bug.id b);
           ("bugzilla_id", Bug.bugzilla_id b);
           ("url", default (PStr ("https://bugzil.la/"
                                  +:+ Py.str (Bug.bugzilla_id b))) (p !! "url"));
           ("summary", summary);
           ("keywords", keywords);
           ("flags_status", fs);
           ("flags_tracking", ft);
           ("creator", creator);
           ("assignee", assignee);
           ("reviewers", PList reviewers);
           ("changes_size", default (PInt 0) (an !! "changes_size"));
           ("uplift", uplift);
           ("patches", patches);
           ("versions", PDict versions) ]).
Proof.
  intros H. pose proof H as H0.
  apply serialize_bug_Ok in H0
    as (p & d & an & _ & uplift & fs & ft & summary & keywords & versions
        & Hp & Hb & Han & Hup & Hv & Hfs & Hft & Hs & Hk & _).
  unfold serialize_bug in H. rewrite Hp in H.
  rewrite (truthy_dict p _ _ Hb) in H. cbn [negb Py.get] in H.
  rewrite Hb, Han in H. cbn [mbind result_bind] in H.
  rewrite (truthy_dict d _ _ Hs) in H.
  assert (Py.truthy (PDict an) = true) as Hta.
  { destruct (Py.truthy (PDict an)) eqn:E; [done|].
    by rewrite orb_true_r in H. }
  rewrite Hta, Hup, Hv in H. cbn [negb orb mbind result_bind Py.getitem] in H.
  bind_inv H. rename a into url, Ha into Hurl.
  rewrite Hs, Hk, Hfs, Hft in H.
  destruct (an !! "users") as [users|] eqn:Hu; [|done].
  cbn [mbind result_bind] in H.
  bind_inv H. rename a into creator, Ha into Hc.
  bind_inv Hc. rename a into c_in.
  apply getitem_Ok in Ha as (ud & -> & Hci).
  cbn [Py.getitem] in H.
  destruct (ud !! "assignee") as [a_in|] eqn:Hai; [|done].
  cbn [mbind result_bind] in H.
  bind_inv H. rename a into assignee, Ha into Ha.
  destruct (ud !! "reviewers") as [rs|] eqn:Hrs; [|done].
  cbn [mbind result_bind] in H.
  bind_inv H. rename a into reviewers, Ha0 into Hr.
  bind_inv Hr. rename a into rl, Ha0 into Hrl.
  bind_inv H. rename a into changes_size, Ha0 into Hcs.
  bind_inv H. rename a into patches, Ha0 into Hpa.
  injection H as <-.
  exists p, d, an, ud, versions, uplift, fs, ft, summary, keywords, c_in, a_in,
    rs, creator, assignee, patches, rl, reviewers.
  repeat (split; [done|]).
  destruct (an !! "patches") as [x|] eqn:Hx; [|done]. injection Hpa as <-.
  split; [done|].
  cbn [Py.get] in Hcs.
  destruct (p !! "url"), (an !! "changes_size");
    injection Hurl as <-; injection Hcs as <-; reflexivity.
Qed.

Lemma valid_users_serialized (l : list pyval) :
  Forall valid_user l -> exists k, mapM serialize_user l = Ok k.
Proof.
  induction 1 as [|u l Hu _ (k & Hk)]; [by exists []|].
  apply serialize_user_valid in Hu as (o & Ho). exists (o :: k).
  cbn [mapM]. rewrite Ho. cbn [mbind result_bind]. fold (mapM serialize_user l).
  by rewrite Hk.
Qed.

Lemma build_versions_returns (d : gmap string pyval) :
  valid_attachments d ->
  exists versions : gmap string pyval, build_versions (PDict d) = Ok versions.
Proof.
  unfold valid_attachments.
  destruct (d !! "attachments") as [x|] eqn:Hd.
  - intros (al & atts & -> & Hal).
    destruct (build_versions_grouped d al atts Hd Hal) as (versions & Hv & _).
    by exists versions.
  - intros _. exists ∅. by apply build_versions_no_attachments.
Qed.

Lemma build_uplift_returns (an : gmap string pyval) :
  valid_uplift an -> exists uplift : pyval, build_uplift (PDict an) = Ok uplift.
Proof.
  intros Hup. destruct (uplift_requested an) eqn:E.
  - destruct (Hup E) as (c & a & Hc & [i Hi] & Ha & Hva).
    apply serialize_user_valid in Hva as (user & Huser).
    unfold uplift_requested, get_or_none in E. rewrite Hc, Ha in E.
    apply andb_prop in E as [_ Hta].
    eexists. by apply (build_uplift_block an c a i user).
  - exists PNone. by apply build_uplift_none.
Qed.

(** X5. A payload that has all that [serialize_bug] reads is serialized:
    [summary] and [keywords] in the bug data, attachments (if any) with
    an id and flags with a name and a status, an analysis with [patches],
    a valid creator and assignee and a list of valid reviewers, and an
    uplift request that, if there is one, has a comment [id] and a valid
    author. Nothing else is needed: [url], [changes_size], the status
    and tracking fields and [attachments] may all be missing. *)
Theorem serialize_bug_returns (b : Bug.t) (p : gmap string pyval) :
  Bug.payload_data b = PDict p ->
  well_formed p ->
  exists o : gmap string pyval, serialize_bug b = Ok (PDict o).
Proof.
  intros Hp (d & an & Hb & Han & [s Hs] & [k Hk] & Hatt & [pa Hpa]
             & (ud & c & a & rl & Hu & Hc & Hvc & Ha & Hva & Hr & Hvr) & Hup).
  apply build_uplift_returns in Hup as (uplift & Hup).
  apply build_versions_returns in Hatt as (versions & Hv).
  apply serialize_user_valid in Hvc as (creator & Hcr).
  apply serialize_user_valid in Hva as (assignee & Has).
  apply valid_users_serialized in Hvr as (reviewers & Hrev).
  unfold serialize_bug. rewrite Hp, (truthy_dict p _ _ Hb).
  cbn [negb Py.get]. rewrite Hb, Han. cbn [mbind result_bind].
  rewrite (truthy_dict d _ _ Hs), (truthy_dict an _ _ Hpa), Hup, Hv.
  cbn [negb orb mbind result_bind Py.getitem _filter_flags Py.items].
  rewrite Hs, Hk, Hu, Hpa. cbn [mbind result_bind Py.getitem].
  rewrite Hc, Ha, Hr. cbn [mbind result_bind Py.iter]. rewrite Hcr, Has, Hrev.
  cbn [mbind result_bind Py.get].
  destruct (p !! "url"), (an !! "changes_size"); eexists; reflexivity.
Qed.

Lemma serialize_bug_returns_witness :
  exists o : gmap string pyval, serialize_bug minimal_bug = Ok (PDict o).
Proof.
  refine (serialize_bug_returns minimal_bug _ eq_refl _).
  eexists _, _. split; [reflexivity|]. split; [reflexivity|].
  split; [by eexists|]. split; [by eexists|]. split; [exact I|].
  split; [by eexists|]. split.
  - eexists _, _, _, _. split; [reflexivity|]. split; [reflexivity|].
    split; [apply valid_bare|]. split; [reflexivity|].
    split; [apply valid_bare|]. split; [reflexivity | constructor].
  - intros H. vm_compute in H. discriminate.
Defined.

(** X6. What [serialize_bug] returns has these fourteen fields and no
    other, whatever the payload: [uplift] is there when there is no
    request, [versions] when there are no attachments. *)
Theorem serialize_bug_fields (b : Bug.t) (o : gmap string pyval) :
  serialize_bug b = Ok (PDict o) ->
  forall k : string, is_Some (o !! k) <-> k ∈ serialize_bug_keys.
Proof.
  intros H k. apply serialize_bug_run in H.
  destruct H as (p & d & an & ud & versions & uplift & fs & ft & summary
                 & keywords & c_in & a_in & rs & creator & assignee & patches
                 & rl & reviewers & H).
  do 18 destruct H as [_ H]. injection H as ->.
  rewrite <- (elem_of_dom (D := gset string)), !dom_insert_L, dom_empty_L.
  unfold serialize_bug_keys.
  rewrite !elem_of_union, !elem_of_singleton, !elem_of_cons, elem_of_empty,
    elem_of_nil.
  tauto.
Qed.

Lemma serialize_bug_fields_witness :
  exists o : gmap string pyval,
    serialize_bug minimal_bug = Ok (PDict o)
    /\ o !! "uplift" = Some PNone
    /\ o !! "versions" = Some (PDict ∅)
    /\ (is_Some (o !! "attachments") <-> "attachments" ∈ serialize_bug_keys).
Proof.
  assert (exists o : gmap string pyval,
            serialize_bug minimal_bug = Ok (PDict o)
            /\ o !! "uplift" = Some PNone
            /\ o !! "versions" = Some (PDict ∅))
    as (o & Ho & Hu & Hv)
    by (eexists; split; [reflexivity | split; vm_compute; reflexivity]).
  exists o. split; [exact Ho|]. split; [exact Hu|]. split; [exact Hv|].
  exact (serialize_bug_fields minimal_bug o Ho "attachments").
Defined.

(** X7. [url] and [changes_size] are those of the payload when it has
    them (whatever they are, [None] included) and else
    [https://bugzil.la/<bugzilla_id>] and [0]; [id], [bugzilla_id],
    [summary], [keywords] and [patches] are handed over untouched. *)
Theorem serialize_bug_defaults (b : Bug.t) (o : gmap string pyval) :
  serialize_bug b = Ok (PDict o) ->
  exists p d an : gmap string pyval,
    Bug.payload_data b = PDict p
    /\ p !! "bug" = Some (PDict d)
    /\ p !! "analysis" = Some (PDict an)
    /\ o !! "url"
       = Some (default (PStr ("https://bugzil.la/" +:+ Py.str (Bug.bugzilla_id b)))
                       (p !! "url"))
    /\ o !! "changes_size" = Some (default (PInt 0) (an !! "changes_size"))
    /\ o !! "id" = Some (Bug.id b)
    /\ o !! "bugzilla_id" = Some (Bug.bugzilla_id b)
    /\ o !! "summary" = d !! "summary"
    /\ o !! "keywords" = d !! "keywords"
    /\ o !! "patches" = an !! "patches".
Proof.
  intros H. apply serialize_bug_run in H.
  destruct H as (p & d & an & ud & versions & uplift & fs & ft & summary
                 & keywords & c_in & a_in & rs & creator & assignee & patches
                 & rl & reviewers & Hp & Hb & Han & _ & _ & _ & Hs & Hk & _ & _
                 & _ & _ & _ & _ & _ & _ & _ & Hpa & H).
  injection H as ->. exists p, d, an.
  split; [exact Hp|]. split; [exact Hb|]. split; [exact Han|].
  rewrite Hs, Hk, Hpa. repeat split; reflexivity.
Qed.

Lemma serialize_bug_defaults_witness :
  exists o : gmap string pyval,
    serialize_bug minimal_bug = Ok (PDict o)
    /\ o !! "url" = Some (PStr "https://bugzil.la/1000")
    /\ o !! "changes_size" = Some (PInt 0)
    /\ o !! "summary" = Some (PStr "Crash").
Proof.
  assert (exists o : gmap string pyval, serialize_bug minimal_bug = Ok (PDict o))
    as (o & Ho) by (eexists; reflexivity).
  destruct (serialize_bug_defaults minimal_bug o Ho)
    as (p & d & an & Hp & Hb & Han & Hurl & Hcs & _ & _ & Hs & _).
  injection Hp as <-.
  assert (Some (PDict d) = Some (PDict {[ "summary" := PStr "Crash";
                                          "keywords" := PList [] ]}))
    as [= ->] by (rewrite <- Hb; reflexivity).
  assert (exists x, Some (PDict an) = Some (PDict x) /\ x !! "changes_size" = None)
    as (x & [= ->] & Hx) by (rewrite <- Han; eexists; split; reflexivity).
  rewrite Hx in Hcs.
  exists o. split; [exact Ho|]. split; [exact Hurl|]. split; [exact Hcs|].
  exact Hs.
Defined.



(** X9. The uplift is built first: a request (a true comment and a true
    author) whose comment has no [id] ends the call with
    [KeyError('id')], whatever the bug data holds. *)
Theorem serialize_bug_comment_without_id
    (b : Bug.t) (p an c : gmap string pyval) (bug_data author : pyval) :
  Bug.payload_data b = PDict p ->
  p !! "bug" = Some bug_data -> Py.truthy bug_data = true ->
  p !! "analysis" = Some (PDict an) ->
  an !! "uplift_comment" = Some (PDict c) -> Py.truthy (PDict c) = true ->
  an !! "uplift_author" = Some author -> Py.truthy author = true ->
  c !! "id" = None ->
  serialize_bug b = Raise (KeyError "id").
Proof.
  intros Hp Hb Htb Han Hc Htc Ha Hta Hid.
  unfold serialize_bug. rewrite Hp, (truthy_dict p _ _ Hb).
  cbn [negb Py.get]. rewrite Hb, Han. cbn [mbind result_bind].
  rewrite Htb, (truthy_dict an _ _ Hc). cbn [negb orb].
  unfold build_uplift. cbn [Py.get Py.getitem]. rewrite Hc, Ha.
  cbn [mbind result_bind]. rewrite Htc. cbn [mbind result_bind]. rewrite Hta.
  cbn [mbind result_bind Py.contains].
  destruct (c !! "html") as [html|] eqn:Hh.
  - rewrite bool_decide_true by done. cbn [mbind result_bind Py.getitem].
    rewrite Hh. cbn [mbind result_bind]. by rewrite Hid.
  - rewrite bool_decide_false by (by intros [? ?]).
    cbn [mbind result_bind Py.get Py.getitem].
    destruct (c !! "text"); cbn [mbind result_bind]; by rewrite Hid.
Qed.

Lemma serialize_bug_comment_without_id_witness :
  serialize_bug example_bug_comment_without_id = Raise (KeyError "id").
Proof.
  apply (serialize_bug_comment_without_id example_bug_comment_without_id _
           (<["uplift_comment" := PDict {[ "text" := PStr "Please uplift." ]}]>
            example_analysis)
           {[ "text" := PStr "Please uplift." ]}
           (PDict example_bug_data)
           (PDict {[ "name" := PStr "bob@example.org" ]}) eq_refl);
    vm_compute; reflexivity.
Defined.

(** X10. A payload that is a true value without being a dictionary (a
    string left undecoded, a list) does not raise the "Missing payload"
    exception: the call ends with an [AttributeError] on [payload.get]. *)
Theorem serialize_bug_payload_not_dict (b : Bug.t) :
  Py.truthy (Bug.payload_data b) = true ->
  (forall p : gmap string pyval, Bug.payload_data b <> PDict p) ->
  serialize_bug b = Raise (AttributeError "get").
Proof.
  intros Ht Hd. unfold serialize_bug. rewrite Ht. cbn [negb].
  destruct (Bug.payload_data b) as [| | | | |p]; try reflexivity.
  by destruct (Hd p).
Qed.

Lemma serialize_bug_payload_not_dict_witness :
  serialize_bug (Bug.Make (PInt 1) (PInt 1000) (PStr "pickled") (PStr "{}"))
  = Raise (AttributeError "get").
Proof.
  apply (serialize_bug_payload_not_dict
           (Bug.Make (PInt 1) (PInt 1000) (PStr "pickled") (PStr "{}")));
    [reflexivity | discriminate].
Defined.

(** ** The versions, further *)

(** X11. For attachments that have an id and flags with a name and a
    status, however many: [versions] has an entry exactly for the names
    [<base_name> <status>] of their approval flags, and the entry has the
    name and status of the first approval flag under that name and the
    ids, as strings, of every attachment for every such flag, in the
    order of the payload; flags that are not approvals leave no trace. *)
Theorem versions_grouped (b : Bug.t) (p d : gmap string pyval)
    (al : list pyval) (atts : list (pyval * list (string * pyval))) :
  Bug.payload_data b = PDict p ->
  p !! "bug" = Some (PDict d) ->
  d !! "attachments" = Some (PList al) ->
  Forall2 is_attachment al atts ->
  exists versions : gmap string pyval,
    build_versions (PDict d) = Ok versions
    /\ (forall key : string, versions !! key = grouped (approvals atts) key)
    /\ forall o : gmap string pyval,
         serialize_bug b = Ok (PDict o) -> o !! "versions" = Some (PDict versions).
Proof.
  intros Hp Hb Hd Hal.
  destruct (build_versions_grouped d al atts Hd Hal) as (versions & Hv & Hg).
  exists versions. split; [exact Hv|]. split; [exact Hg|].
  intros o H. apply serialize_bug_Ok in H
    as (p' & d' & ? & ? & ? & ? & ? & ? & ? & versions' & Hp' & Hb' & _ & _
        & Hv' & _ & _ & _ & _ & [= <-] & _ & _ & _ & _ & _ & _ & _ & ->).
  rewrite Hp in Hp'. injection Hp' as <-.
  rewrite Hb in Hb'. injection Hb' as <-.
  rewrite Hv in Hv'. by injection Hv' as <-.
Qed.

Lemma versions_grouped_witness :
  exists versions : gmap string pyval,
    build_versions (PDict {[ "attachments" := PList example_attachments ]})
    = Ok versions
    /\ versions !! "beta +"
       = Some (version_entry (PStr "approval-mozilla-beta") (PStr "+")
                 [PStr "42"; PStr "43"])
    /\ versions !! "review ?" = None.
Proof.
  destruct (versions_grouped
              (Bug.Make (PInt 1) (PInt 1000) (PStr "pickled")
                 (PDict {[ "bug" := PDict {[ "attachments" := PList example_attachments ]} ]}))
              {[ "bug" := PDict {[ "attachments" := PList example_attachments ]} ]}
              {[ "attachments" := PList example_attachments ]}
              example_attachments
              [ (PInt 42, [("approval-mozilla-beta", PStr "+")]);
                (PInt 43, [("review", PStr "?"); ("approval-mozilla-beta", PStr "+")]) ])
    as (versions & Hv & Hg & _); [reflexivity | reflexivity | reflexivity | |].
  - repeat constructor.
    + eexists _, _. split; [reflexivity|]. split; [reflexivity|].
      split; [reflexivity|]. repeat constructor.
      eexists. split; [reflexivity|]. split; reflexivity.
    + eexists _, _. split; [reflexivity|]. split; [reflexivity|].
      split; [reflexivity|]. repeat constructor.
      * eexists. split; [reflexivity|]. split; reflexivity.
      * eexists. split; [reflexivity|]. split; reflexivity.
  - exists versions. split; [exact Hv|]. split; rewrite Hg; reflexivity.
Defined.

Lemma add_flags_other (a : pyval) (versions : gmap string pyval)
    (fl : list pyval) :
  Forall is_other_flag fl -> foldM (add_flag a) versions fl = Ok versions.
Proof.
  induction 1 as [|f fl (fd & n & -> & Hn & Hp) _ IH]; [done|].
  cbn [foldM]. by rewrite (add_flag_other a fd versions n Hn Hp).
Qed.

Lemma add_attachments_no_approval (versions : gmap string pyval)
    (al : list pyval) :
  Forall has_no_approval al -> foldM add_attachment versions al = Ok versions.
Proof.
  induction 1 as [|a al (ad & fl & -> & Hfl & Hother) _ IH]; [done|].
  cbn [foldM]. rewrite (add_attachment_flags _ _ _ Hfl).
  by rewrite (add_flags_other _ _ _ Hother).
Qed.

(** X12. The id of an attachment and the status of a flag are read for
    approval flags only: attachments whose flags all have another name
    need neither, and leave [versions] empty. *)
Theorem versions_without_approval (d : gmap string pyval) (al : list pyval) :
  d !! "attachments" = Some (PList al) ->
  Forall has_no_approval al ->
  build_versions (PDict d) = Ok ∅.
Proof.
  intros Hd Hal. unfold build_versions. cbn [Py.get]. rewrite Hd.
  cbn [mbind result_bind Py.iter]. by apply add_attachments_no_approval.
Qed.

Lemma versions_without_approval_witness :
  build_versions
    (PDict {[ "attachments" :=
                PList [PDict {[ "flags" := PList [PDict {[ "name" := PStr "review" ]}] ]};
                       PDict {[ "flags" := PList [] ]}] ]})
  = Ok ∅.
Proof.
  apply (versions_without_approval
           {[ "attachments" :=
                PList [PDict {[ "flags" := PList [PDict {[ "name" := PStr "review" ]}] ]};
                       PDict {[ "flags" := PList [] ]}] ]}
           [PDict {[ "flags" := PList [PDict {[ "name" := PStr "review" ]}] ]};
            PDict {[ "flags" := PList [] ]}]); [reflexivity|].
  repeat constructor.
  - eexists _, _. split; [reflexivity|]. split; [reflexivity|].
    repeat constructor. eexists _, _. split; [reflexivity|]. split; reflexivity.
  - eexists _, _. split; [reflexivity|]. split; [reflexivity|]. constructor.
Defined.

(** After attachments that are well formed, [versions] holds entries of
    the expected shape only. *)
Lemma well_formed_prefix (al : list pyval)
    (atts : list (pyval * list (string * pyval))) :
  Forall2 is_attachment al atts ->
  exists vs : gmap string (pyval * pyval * list pyval),
    foldM add_attachment ∅ al
    = Ok ((fun e => version_entry e.1.1 e.1.2 e.2) <$> vs).
Proof.
  intros H. pose proof (add_attachments_fold al atts H ∅) as E.
  rewrite fmap_empty in E. eexists. exact E.
Qed.

Lemma add_attachment_without_flags (versions ad : gmap string pyval) :
  ad !! "flags" = None ->
  add_attachment versions (PDict ad) = Raise (KeyError "flags").
Proof. intros H. unfold add_attachment. cbn [Py.getitem]. by rewrite H. Qed.

(** X13. An attachment without [flags] ends the loop with
    [KeyError('flags')], wherever it stands in the list, even when it has
    nothing to approve. *)
Theorem versions_attachment_without_flags
    (d ad : gmap string pyval) (al1 al2 : list pyval)
    (atts1 : list (pyval * list (string * pyval))) :
  d !! "attachments" = Some (PList (al1 ++ PDict ad :: al2)) ->
  Forall2 is_attachment al1 atts1 ->
  ad !! "flags" = None ->
  build_versions (PDict d) = Raise (KeyError "flags").
Proof.
  intros Hd Hal Hfl. unfold build_versions. cbn [Py.get]. rewrite Hd.
  cbn [mbind result_bind Py.iter]. rewrite foldM_app.
  destruct (well_formed_prefix al1 atts1 Hal) as (vs & ->).
  cbn [mbind result_bind foldM].
  by rewrite (add_attachment_without_flags _ _ Hfl).
Qed.

Lemma versions_attachment_without_flags_witness :
  build_versions
    (PDict {[ "attachments" :=
                PList [PDict {[ "id" := PInt 42; "flags" := PList [beta_approval] ]};
                       PDict {[ "id" := PInt 43 ]}] ]})
  = Raise (KeyError "flags").
Proof.
  apply (versions_attachment_without_flags
           {[ "attachments" :=
                PList [PDict {[ "id" := PInt 42; "flags" := PList [beta_approval] ]};
                       PDict {[ "id" := PInt 43 ]}] ]}
           {[ "id" := PInt 43 ]}
           [PDict {[ "id" := PInt 42; "flags" := PList [beta_approval] ]}] []
           [(PInt 42, [("approval-mozilla-beta", PStr "+")])]);
    [reflexivity | | reflexivity].
  repeat constructor.
  eexists _, _. split; [reflexivity|]. split; [reflexivity|].
  split; [reflexivity|]. repeat constructor.
  eexists. split; [reflexivity|]. split; reflexivity.
Defined.

Lemma add_flag_without_id (ad fd : gmap string pyval) (n : string)
    (status : pyval) (vs : gmap string (pyval * pyval * list pyval)) :
  ad !! "id" = None ->
  fd !! "name" = Some (PStr n) -> fd !! "status" = Some status ->
  Str.startswith approval_base_flag n = true ->
  add_flag (PDict ad) ((fun e => version_entry e.1.1 e.1.2 e.2) <$> vs) (PDict fd)
  = Raise (KeyError "id").
Proof.
  intros Hid Hn Hs Hp. unfold add_flag. cbn [Py.getitem]. rewrite Hn, Hs.
  cbn [mbind result_bind Py.startswith]. rewrite Hp, lookup_fmap.
  destruct (vs !! version_name n status) as [e|] eqn:Hv; cbn [fmap option_fmap option_map].
  - rewrite lookup_fmap, Hv. cbn [fmap option_fmap option_map mbind result_bind].
    rewrite getitem_attachments. cbn [mbind result_bind Py.append].
    by rewrite Hid.
  - rewrite lookup_insert_eq. cbn [mbind result_bind].
    rewrite getitem_attachments. cbn [mbind result_bind Py.append].
    by rewrite Hid.
Qed.

(** X14. An approval flag on an attachment without [id] ends the loop
    with [KeyError('id')]: the flags before it were gone through, and
    the entry of the flag may already have been opened. *)
Theorem versions_approval_without_id
    (d ad fd : gmap string pyval) (al1 al2 fl1 fl2 : list pyval)
    (atts1 : list (pyval * list (string * pyval)))
    (n : string) (status : pyval) :
  d !! "attachments" = Some (PList (al1 ++ PDict ad :: al2)) ->
  Forall2 is_attachment al1 atts1 ->
  ad !! "id" = None ->
  ad !! "flags" = Some (PList (fl1 ++ PDict fd :: fl2)) ->
  Forall is_other_flag fl1 ->
  fd !! "name" = Some (PStr n) -> fd !! "status" = Some status ->
  Str.startswith approval_base_flag n = true ->
  build_versions (PDict d) = Raise (KeyError "id").
Proof.
  intros Hd Hal Hid Hfl Hother Hn Hs Hp. unfold build_versions.
  cbn [Py.get]. rewrite Hd. cbn [mbind result_bind Py.iter].
  rewrite foldM_app. destruct (well_formed_prefix al1 atts1 Hal) as (vs & ->).
  cbn [mbind result_bind foldM]. rewrite (add_attachment_flags _ _ _ Hfl).
  rewrite foldM_app, (add_flags_other _ _ _ Hother).
  cbn [mbind result_bind foldM].
  by rewrite (add_flag_without_id ad fd n status vs Hid Hn Hs Hp).
Qed.

Lemma versions_approval_without_id_witness :
  build_versions
    (PDict {[ "attachments" :=
                PList [PDict {[ "flags" := PList [review_flag; beta_approval] ]}] ]})
  = Raise (KeyError "id").
Proof.
  apply (versions_approval_without_id
           {[ "attachments" :=
                PList [PDict {[ "flags" := PList [review_flag; beta_approval] ]}] ]}
           {[ "flags" := PList [review_flag; beta_approval] ]}
           {[ "name" := PStr "approval-mozilla-beta"; "status" := PStr "+" ]}
           [] [] [review_flag] [] [] "approval-mozilla-beta" (PStr "+"));
    [reflexivity | constructor | reflexivity | reflexivity |
     | reflexivity | reflexivity | reflexivity].
  repeat constructor.
  eexists _, _. split; [reflexivity|]. split; reflexivity.
Defined.

(** X15. An [attachments] key that is there with a value that cannot be
    iterated over ([None], a number) is not taken for an empty list as a
    missing key is: once the uplift is built, the call ends with a
    [TypeError]. *)
Theorem serialize_bug_attachments_not_iterable
    (b : Bug.t) (p d an : gmap string pyval) (x : pyval) :
  Bug.payload_data b = PDict p ->
  p !! "bug" = Some (PDict d) ->
  p !! "analysis" = Some (PDict an) ->
  Py.truthy (PDict an) = true ->
  valid_uplift an ->
  d !! "attachments" = Some x ->
  Py.iter x = Raise TypeError ->
  serialize_bug b = Raise TypeError.
Proof.
  intros Hp Hb Han Hta Hup Hd Hx.
  apply build_uplift_returns in Hup as (uplift & Hup).
  unfold serialize_bug. rewrite Hp, (truthy_dict p _ _ Hb).
  cbn [negb Py.get]. rewrite Hb, Han. cbn [mbind result_bind].
  rewrite (truthy_dict d _ _ Hd), Hta, Hup. cbn [negb orb mbind result_bind].
  unfold build_versions. cbn [Py.get]. rewrite Hd.
  cbn [mbind result_bind]. by rewrite Hx.
Qed.

Lemma serialize_bug_attachments_not_iterable_witness :
  serialize_bug example_bug_null_attachments = Raise TypeError.
Proof.
  apply (serialize_bug_attachments_not_iterable example_bug_null_attachments
           {[ "bug" := PDict (<["attachments" := PNone]> example_bug_data);
              "analysis" := PDict example_analysis ]}
           (<["attachments" := PNone]> example_bug_data) example_analysis PNone);
    [reflexivity | reflexivity | reflexivity | reflexivity |
     | reflexivity | reflexivity].
  intros _. eexists _, _. split; [reflexivity|]. split; [by eexists|].
  split; [reflexivity|]. by apply (valid_name _ "bob@example.org").
Defined.

(** X16. [summary] and [keywords] have no default: once the uplift and
    the versions are built, bug data without [summary] ends the call with
    [KeyError('summary')], and with [summary] but without [keywords] with
    [KeyError('keywords')], before the users of the analysis are looked
    at. *)
Theorem serialize_bug_without_summary
    (b : Bug.t) (p d an : gmap string pyval) :
  Bug.payload_data b = PDict p ->
  p !! "bug" = Some (PDict d) -> Py.truthy (PDict d) = true ->
  p !! "analysis" = Some (PDict an) -> Py.truthy (PDict an) = true ->
  valid_uplift an -> valid_attachments d ->
  d !! "summary" = None \/ d !! "keywords" = None ->
  serialize_bug b
  = Raise (KeyError (match d !! "summary" with
                     | Some _ => "keywords"
                     | None => "summary"
                     end)).
Proof.
  intros Hp Hb Htd Han Hta Hup Hatt Hm.
  apply build_uplift_returns in Hup as (uplift & Hup).
  apply build_versions_returns in Hatt as (versions & Hv).
  unfold serialize_bug. rewrite Hp, (truthy_dict p _ _ Hb).
  cbn [negb Py.get]. rewrite Hb, Han. cbn [mbind result_bind].
  rewrite Htd, Hta, Hup, Hv. cbn [negb orb mbind result_bind Py.getitem].
  destruct (p !! "url"); cbn [mbind result_bind];
    destruct (d !! "summary") as [s|] eqn:Hs; cbn [mbind result_bind];
    try reflexivity; destruct Hm as [Hm|Hm]; try discriminate;
    by rewrite Hm.
Qed.

Lemma serialize_bug_without_summary_witness :
  serialize_bug example_bug_no_keywords = Raise (KeyError "keywords").
Proof.
  rewrite (serialize_bug_without_summary example_bug_no_keywords _
             (delete "keywords" example_bug_data) example_analysis eq_refl);
    try reflexivity.
  - intros _. eexists _, _. split; [reflexivity|]. split; [by eexists|].
    split; [reflexivity|]. by apply (valid_name _ "bob@example.org").
  - unfold valid_attachments.
    assert (delete "keywords" example_bug_data !! "attachments"
            = Some (PList [ PDict {[ "id" := PInt 42; "flags" := PList [beta_approval] ]};
                            PDict {[ "id" := PInt 43; "flags" := PList [beta_approval] ]} ]))
      as -> by reflexivity.
    exists [ PDict {[ "id" := PInt 42; "flags" := PList [beta_approval] ]};
             PDict {[ "id" := PInt 43; "flags" := PList [beta_approval] ]} ],
           [ (PInt 42, [("approval-mozilla-beta", PStr "+")]);
             (PInt 43, [("approval-mozilla-beta", PStr "+")]) ].
    split; [reflexivity|]. repeat constructor.
    + eexists _, _. split; [reflexivity|]. split; [reflexivity|].
      split; [reflexivity|]. repeat constructor.
      eexists. split; [reflexivity|]. split; reflexivity.
    + eexists _, _. split; [reflexivity|]. split; [reflexivity|].
      split; [reflexivity|]. repeat constructor.
      eexists. split; [reflexivity|]. split; reflexivity.
  - right. reflexivity.
Defined.

(** ** serialize_analysis, further *)

Lemma filter_length_le {A : Type} (f : A -> bool) (l : list A) :
  (length (List.filter f l) <= length l)%nat.
Proof. induction l as [|x l IH]; simpl; [lia|]. destruct (f x); simpl; lia. Qed.

(** X17. With [full], [bugs] holds the serialized bugs that have a true
    [payload], one for one and in the order of the analysis; the others
    are left out, so [bugs] can be shorter than [count] says. *)
Theorem serialize_analysis_bugs (a : Analysis.t) (o : gmap string pyval) :
  serialize_analysis a true = Ok (PDict o) ->
  exists l : list pyval,
    o !! "bugs" = Some (PList l)
    /\ Forall2 (fun b out => serialize_bug b = Ok out)
         (List.filter (fun b => Py.truthy (Bug.payload b)) (Analysis.bugs a)) l
    /\ (length l <= length (Analysis.bugs a))%nat.
Proof.
  unfold serialize_analysis. intros H.
  apply bind_Ok in H as (l & Hl & H). injection H as <-.
  apply mapM_Ok in Hl. exists l. split; [reflexivity|]. split; [exact Hl|].
  rewrite <- (Forall2_length _ _ _ Hl). apply filter_length_le.
Qed.

Lemma serialize_analysis_bugs_witness :
  exists (o : gmap string pyval) (bug : pyval),
    serialize_analysis example_entity true = Ok (PDict o)
    /\ serialize_bug example_bug = Ok bug
    /\ o !! "bugs" = Some (PList [bug])
    /\ o !! "count" = Some (PInt 2).
Proof.
  assert (exists o : gmap string pyval,
            serialize_analysis example_entity true = Ok (PDict o)
            /\ o !! "count" = Some (PInt 2))
    as (o & Ho & Hc) by (eexists; split; reflexivity).
  destruct (serialize_analysis_bugs example_entity o Ho) as (l & Hl & Hall & _).
  change (List.filter _ (Analysis.bugs example_entity)) with [example_bug] in Hall.
  inversion Hall as [|? bug ? ? Hbug Hnil]; subst. inversion Hnil; subst.
  exists o, bug. split; [exact Ho|]. split; [exact Hbug|].
  split; [exact Hl | exact Hc].
Defined.

(** X18. With [full], [serialize_analysis] raises exactly when one of
    the bugs that have a true [payload] raises, and it raises what the
    first of them raises: one bad bug and nothing of the analysis is
    returned. *)
Theorem serialize_analysis_raises (a : Analysis.t) (e : exn) :
  serialize_analysis a true = Raise e
  <-> exists (l1 : list Bug.t) (b : Bug.t) (l2 : list Bug.t),
        List.filter (fun b => Py.truthy (Bug.payload b)) (Analysis.bugs a)
        = l1 ++ b :: l2
        /\ Forall (fun b' => exists out, serialize_bug b' = Ok out) l1
        /\ serialize_bug b = Raise e.
Proof.
  rewrite <- mapM_Raise. unfold serialize_analysis.
  destruct (mapM serialize_bug _) as [l|e']; cbn [mbind result_bind];
    split; congruence.
Qed.

Lemma serialize_analysis_raises_witness :
  serialize_analysis example_entity_undecoded true
  = Raise (Exception "Missing payload").
Proof.
  apply (proj2 (serialize_analysis_raises example_entity_undecoded
                  (Exception "Missing payload"))).
  exists [example_bug], undecoded_bug, []. split; [reflexivity|].
  split; [|reflexivity]. repeat constructor. eexists. reflexivity.
Defined.

(** X19. The bugs are chosen by [payload] and serialized from
    [payload_data]: a bug that has the first and a false second is not
    left out, and when the bugs before it go through, the whole analysis
    ends with the "Missing payload" exception. *)
Theorem serialize_analysis_undecoded_payload
    (a : Analysis.t) (l1 l2 : list Bug.t) (b : Bug.t) :
  Analysis.bugs a = l1 ++ b :: l2 ->
  Forall (fun b' => Py.truthy (Bug.payload b') = true ->
                    exists out, serialize_bug b' = Ok out) l1 ->
  Py.truthy (Bug.payload b) = true ->
  Py.truthy (Bug.payload_data b) = false ->
  serialize_analysis a true = Raise (Exception "Missing payload").
Proof.
  intros Hbugs Hl1 Hpay Hdata. unfold serialize_analysis. rewrite Hbugs.
  rewrite List.filter_app. cbn [List.filter]. rewrite Hpay.
  assert (mapM serialize_bug
            (List.filter (fun b0 => Py.truthy (Bug.payload b0)) l1
             ++ b :: List.filter (fun b0 => Py.truthy (Bug.payload b0)) l2)
          = Raise (Exception "Missing payload")) as ->; [|done].
  apply mapM_Raise. eexists _, b, _. split; [reflexivity|].
  split; [|by apply serialize_bug_no_payload].
  clear -Hl1. induction Hl1 as [|x l Hx _ IH]; [constructor|].
  cbn [List.filter]. destruct (Py.truthy (Bug.payload x)) eqn:E; [|exact IH].
  constructor; [by apply Hx | exact IH].
Qed.

Lemma serialize_analysis_undecoded_payload_witness :
  serialize_analysis example_entity_undecoded true
  = Raise (Exception "Missing payload").
Proof.
  apply (serialize_analysis_undecoded_payload example_entity_undecoded
           [Bug.Make (PInt 8) (PInt 7654321) PNone PNone; example_bug] []
           undecoded_bug eq_refl); [|reflexivity|reflexivity].
  repeat constructor.
  - discriminate.
  - intros _. eexists. reflexivity.
Defined.

(** X20. When no bug of the analysis has a true [payload], [full] makes
    no difference: no bug is serialized, nothing can raise, and [bugs]
    is empty either way. *)
Theorem serialize_analysis_no_payload (a : Analysis.t) :
  Forall (fun b => Py.truthy (Bug.payload b) = false) (Analysis.bugs a) ->
  serialize_analysis a true = serialize_analysis a false.
Proof.
  intros H. unfold serialize_analysis.
  assert (List.filter (fun b => Py.truthy (Bug.payload b)) (Analysis.bugs a) = [])
    as ->; [|reflexivity].
  induction H as [|b l Hb _ IH]; [done|]. cbn [List.filter]. by rewrite Hb.
Qed.

Lemma serialize_analysis_no_payload_witness :
  let a := Analysis.Make (PInt 5) (PStr "Empty") PNone
             [Bug.Make (PInt 8) (PInt 7654321) PNone (PDict ∅)] in
  serialize_analysis a true = serialize_analysis a false.
Proof.
  intros a. apply (serialize_analysis_no_payload a). by repeat constructor.
Defined.
